(** * MZP tile extraction (tools/_extract_mzp_tiles.py): a shallow embedding

    The Python class [MzpFile] reads a 16-byte descriptor, builds a palette
    for indexed bitmaps, decodes every tile, stitches the cropped scanlines
    into [self.rows] and serialises the result as a PNG.

    Conventions of the embedding:
    - Python [bytes] are [list byte]; indexing a byte gives an integer in
      0..255 ([byte_to_Z]); [struct.pack('B', v)] is [pack_B], which raises
      [StructError] outside 0..255.
    - Python integers are [Z].
    - Exceptions are the constructors of [exn]; a computation that may raise
      returns a [result].  [logger.error(..)] followed by [sys.exit(1)] is
      [Exit] with the kind of message that was logged.
    - The file object [self.data] is a fixed byte list plus a position; code
      that seeks and reads runs in the position-state monad [M].
    - The MZX decompressor lives in another module (mzx.decomp_mzx0) and is a
      parameter: [dec_tile index] is the decompressed buffer of tile [index]. *)

From Stdlib Require Import ZArith List Lia Bool.
From Stdlib Require Import Strings.Byte.
Import ListNotations.
Open Scope Z_scope.

(** ** Bytes, exceptions, results *)

Definition bytes := list byte.

Definition byte_to_Z (b : byte) : Z := Z.of_N (Byte.to_N b).

Inductive fatal :=
| UnknownType          (* "Unknown type 0x.." *)
| UnknownDepth         (* "Unknown depth 0x.." *)
| UnsupportedPalette   (* "Unsupported palette type 0x.." *)
| UnsupportedPEH.      (* "Unsupported type 0x.. (PEH)" *)

Inductive exn :=
| Exit (why : fatal)   (* logger.error(..); call(pause); sys.exit(1) *)
| StructError          (* struct.error *)
| IndexError
| ValueError
| AttributeError.

Inductive result (A : Type) :=
| Ok (a : A)
| Raise (e : exn).
Arguments Ok {A} a.
Arguments Raise {A} e.

Definition rbind {A B} (r : result A) (k : A -> result B) : result B :=
  match r with
  | Ok a => k a
  | Raise e => Raise e
  end.

Declare Scope result_scope.
Delimit Scope result_scope with res.
Notation "x <~ c ;; k" := (rbind c (fun x => k))
  (at level 61, c at next level, right associativity) : result_scope.
Notation "' p <~ c ;; k" := (rbind c (fun x => match x with p => k end))
  (at level 61, p pattern, c at next level, right associativity) : result_scope.

(** [struct.pack('B', v)] *)
Definition pack_B (v : Z) : result byte :=
  if (0 <=? v) && (v <=? 255) then
    match Byte.of_N (Z.to_N v) with
    | Some b => Ok b
    | None => Raise StructError
    end
  else Raise StructError.

(** [struct.unpack('B', s)]: exactly one byte is required. *)
Definition unpack_B (s : bytes) : result Z :=
  match s with
  | [b] => Ok (byte_to_Z b)
  | _ => Raise StructError
  end.

(** Little-endian unsigned 16-bit field (format character [H]). *)
Definition u16le (lo hi : byte) : Z := byte_to_Z lo + 256 * byte_to_Z hi.

(** ** Python sequence operations *)

(** A slice bound is clamped as Python does: a negative bound counts from
    the end, and both are cut to [0, len]. *)
Definition clamp_index (len i : Z) : Z :=
  if i <? 0 then Z.max 0 (i + len) else Z.min i len.

(** [l[lo:hi]] *)
Definition py_slice {A} (l : list A) (lo hi : Z) : list A :=
  let len := Z.of_nat (length l) in
  let lo' := clamp_index len lo in
  let hi' := clamp_index len hi in
  firstn (Z.to_nat (hi' - lo')) (skipn (Z.to_nat lo') l).

(** [l[lo:]] *)
Definition py_slice_from {A} (l : list A) (lo : Z) : list A :=
  py_slice l lo (Z.of_nat (length l)).

(** [l[:hi]] *)
Definition py_slice_to {A} (l : list A) (hi : Z) : list A :=
  py_slice l 0 hi.

(** The position in [l] that the index [i] designates: negative indices count
    from the end, anything outside [-len, len) is an [IndexError]. *)
Definition py_position {A} (l : list A) (i : Z) : result nat :=
  let len := Z.of_nat (length l) in
  if (0 <=? i) && (i <? len) then Ok (Z.to_nat i)
  else if (- len <=? i) && (i <? 0) then Ok (Z.to_nat (i + len))
  else Raise IndexError.

(** [l[i]] *)
Definition py_getitem {A} (l : list A) (i : Z) : result A :=
  (n <~ py_position l i ;;
   match nth_error l n with
   | Some a => Ok a
   | None => Raise IndexError
   end)%res.

Fixpoint update_nth {A} (l : list A) (n : nat) (f : A -> A) : list A :=
  match l, n with
  | [], _ => []
  | a :: l', O => f a :: l'
  | a :: l', S n' => a :: update_nth l' n' f
  end.

(** [l[i] += extra] on a list of byte strings *)
Definition py_iadd_item (l : list bytes) (i : Z) (extra : bytes)
  : result (list bytes) :=
  (n <~ py_position l i ;;
   Ok (update_nth l n (fun row => row ++ extra)))%res.

(** [range(n)] as the list of its values *)
Definition range (n : Z) : list Z := map Z.of_nat (seq 0 (Z.to_nat n)).

(** [range(lo, hi)] *)
Definition range2 (lo hi : Z) : list Z := map (Z.add lo) (range (hi - lo)).

(** [chunks(l, n)] for a positive [n]: [l[0:n], l[n:2n], ...].  The fuel is
    the number of remaining elements, which is enough since every chunk
    removes at least one. *)
Fixpoint chunks_fuel {A} (fuel : nat) (l : list A) (n : nat) : list (list A) :=
  match fuel, l with
  | _, [] => []
  | O, _ => []
  | S fuel', _ => firstn n l :: chunks_fuel fuel' (skipn n l) n
  end.

(** [chunks(l, n)], consumed by a [for] loop: [range(0, len(l), 0)] raises
    [ValueError], a negative step gives the empty range. *)
Definition chunks {A} (l : list A) (n : Z) : result (list (list A)) :=
  if n =? 0 then Raise ValueError
  else if n <? 0 then Ok []
  else Ok (chunks_fuel (length l) l (Z.to_nat n)).

(** A [for] loop whose body threads a state and may raise. *)
Fixpoint for_each {A S} (l : list A) (body : A -> S -> result S) (s : S)
  : result S :=
  match l with
  | [] => Ok s
  | a :: l' => rbind (body a s) (for_each l' body)
  end.

(** ** The file object [self.data] *)

(** A computation over the open file: it receives the current position and
    returns a value with the new position, or raises. *)
Definition M (A : Type) := nat -> result (A * nat).

Definition mret {A} (a : A) : M A := fun pos => Ok (a, pos).

Definition mbind {A B} (c : M A) (k : A -> M B) : M B :=
  fun pos =>
    match c pos with
    | Ok (a, pos') => k a pos'
    | Raise e => Raise e
    end.

Definition mraise {A} (e : exn) : M A := fun _ => Raise e.

Definition lift {A} (r : result A) : M A :=
  fun pos => match r with Ok a => Ok (a, pos) | Raise e => Raise e end.

Declare Scope file_scope.
Delimit Scope file_scope with file.
Notation "x <- c ;; k" := (mbind c (fun x => k))
  (at level 61, c at next level, right associativity) : file_scope.
Notation "c ;;; k" := (mbind c (fun _ => k))
  (at level 61, right associativity) : file_scope.

(** A [for] loop over the file: the body updates an accumulator. *)
Fixpoint mfor {A S} (l : list A) (body : A -> S -> M S) (s : S) : M S :=
  match l with
  | [] => mret s
  | a :: l' => mbind (body a s) (mfor l' body)
  end.

Section File.

(** The content of the container file. *)
Variable data : bytes.

(** [self.data.read(n)]: at most [n] bytes, fewer at the end of the file. *)
Definition read (n : nat) : M bytes :=
  fun pos =>
    let got := firstn n (skipn pos data) in
    Ok (got, (pos + length got)%nat).

(** [self.data.seek(p)] *)
Definition seek (p : nat) : M unit := fun _ => Ok (tt, p).

(** [self.data.tell()] *)
Definition tell : M nat := fun pos => Ok (pos, pos).

(** *** The descriptor: [unpack('<HHHHHHHBB', self.data.read(0x10))] *)

Record header := {
  width : Z;
  height : Z;
  tile_width : Z;
  tile_height : Z;
  tile_x_count : Z;
  tile_y_count : Z;
  bmp_type : Z;
  bmp_depth : Z;
  tile_crop : Z
}.

Definition unpack_header (raw : bytes) : result header :=
  match raw with
  | [w0; w1; h0; h1; tw0; tw1; th0; th1; tx0; tx1; ty0; ty1; t0; t1; d; c] =>
      Ok {| width := u16le w0 w1;
            height := u16le h0 h1;
            tile_width := u16le tw0 tw1;
            tile_height := u16le th0 th1;
            tile_x_count := u16le tx0 tx1;
            tile_y_count := u16le ty0 ty1;
            bmp_type := u16le t0 t1;
            bmp_depth := byte_to_Z d;
            tile_crop := byte_to_Z c |}
  | _ => Raise StructError
  end.

(** *** The palette *)

(** The three byte strings the palette loops append to. *)
Record palette := {
  paletteblob : bytes;
  palettepng : bytes;
  transpng : bytes
}.

Definition empty_palette : palette :=
  {| paletteblob := []; palettepng := []; transpng := [] |}.

(** [(temp_a << 1) + (temp_a >> 6) if (temp_a < 0x80) else 255] *)
Definition expand_alpha (temp_a : Z) : Z :=
  if temp_a <? 0x80 then Z.shiftl temp_a 1 + Z.shiftr temp_a 6 else 255.

(** The body shared by the two palette loops: read r, g, b and the raw
    alpha, remap the alpha, append to the three strings. *)
Definition read_palette_entry (p : palette) : M palette :=
  (r <- read 1 ;;
   g <- read 1 ;;
   b <- read 1 ;;
   raw <- read 1 ;;
   temp_a <- lift (unpack_B raw) ;;
   a <- lift (pack_B (expand_alpha temp_a)) ;;
   mret {| paletteblob := paletteblob p ++ (b ++ g ++ r ++ [a]);
           palettepng := palettepng p ++ (r ++ g ++ b);
           transpng := transpng p ++ [a] |})%file.

(** [for i in range(self.palette_count): ...] (depth 0x00 and 0x10) *)
Definition read_palette_linear (palette_count : Z) (p : palette) : M palette :=
  mfor (range palette_count) (fun _ => read_palette_entry) p.

(** The offset the block loop seeks to, relative to [pal_start]:
    [h * 0x80 + (i + j * 2) * 0x20]. *)
Definition sub_block_offset (h i j : Z) : Z :=
  h * 0x80 + (i + j * 2) * 0x20.

(** [for h ..: for i in range(2): for j in range(2): seek; for k in range(8)]
    (depth 0x11, 0x91 and 0x01, "RGBATim2") *)
Definition read_palette_blocks (palette_count : Z) (p : palette) : M palette :=
  (pal_start <- tell ;;
   mfor (range (palette_count * 4 / 0x80)) (fun h =>
     mfor (range 2) (fun i =>
       mfor (range 2) (fun j p =>
         seek (Z.to_nat (sub_block_offset h i j + Z.of_nat pal_start)) ;;;
         mfor (range 8) (fun _ => read_palette_entry) p))) p)%file.

(** [for i in range(self.palette_count, 0x100): ...] *)
Definition pad_entry (p : palette) : palette :=
  {| paletteblob := paletteblob p ++ [x00; x00; x00; xff];
     palettepng := palettepng p ++ [x00; x00; x00];
     transpng := transpng p ++ [xff] |}.

Definition pad_palette (palette_count : Z) (p : palette) : palette :=
  fold_left (fun p _ => pad_entry p) (range2 palette_count 0x100) p.

(** *** [MzpFile.extract_desc] *)

(** The attributes [extract_desc] sets.  [bitmap_bpp] and [palette_count]
    are assigned only on some branches: [None] is an attribute that was
    never set. *)
Record desc := {
  hdr : header;
  tile_size : Z;
  bitmap_bpp : option Z;
  palette_count : option Z;
  pal : palette
}.

Definition is_indexed_bitmap (bmp_info : Z) : bool := bmp_info =? 0x01.

(** [x in [..]] on integers *)
Definition mem (x : Z) (l : list Z) : bool := existsb (Z.eqb x) l.

(** [real_offset] is [self.entries_descriptors[0].real_offset].  The final
    [del self.entries_descriptors[0]] only renumbers the tile entries; the
    tile decoder below is indexed by the renumbered list. *)
Definition extract_desc (real_offset : nat) : M desc :=
  (seek real_offset ;;;
   raw <- read 0x10 ;;
   h <- lift (unpack_header raw) ;;
   let tsize := tile_width h * tile_height h in
   if negb (mem (bmp_type h) [0x01; 0x03; 0x08; 0x0B; 0x0C]) then
     mraise (Exit UnknownType)
   else if is_indexed_bitmap (bmp_type h) then
     bc <- (if bmp_depth h =? 0x01 then mret (8, 0x100)
            else if (bmp_depth h =? 0x00) || (bmp_depth h =? 0x10) then
              mret (4, 0x10)
            else if (bmp_depth h =? 0x11) || (bmp_depth h =? 0x91) then
              mret (8, 0x100)
            else mraise (Exit UnknownDepth)) ;;
     let bpp := fst bc in
     let count := snd bc in
     p <- (if mem (bmp_depth h) [0x00; 0x10] then
             read_palette_linear count empty_palette
           else if mem (bmp_depth h) [0x11; 0x91; 0x01] then
             read_palette_blocks count empty_palette
           else mraise (Exit UnsupportedPalette)) ;;
     mret {| hdr := h; tile_size := tsize; bitmap_bpp := Some bpp;
             palette_count := Some count; pal := pad_palette count p |}
   else if bmp_type h =? 0x08 then
     if bmp_depth h =? 0x14 then
       mret {| hdr := h; tile_size := tsize; bitmap_bpp := Some 24;
               palette_count := None; pal := empty_palette |}
     else mraise (Exit UnknownDepth)
   else if bmp_type h =? 0x0B then
     if bmp_depth h =? 0x14 then
       mret {| hdr := h; tile_size := tsize; bitmap_bpp := Some 32;
               palette_count := None; pal := empty_palette |}
     else mraise (Exit UnknownDepth)
   else if bmp_type h =? 0x0C then
     if bmp_depth h =? 0x11 then
       mret {| hdr := h; tile_size := tsize; bitmap_bpp := Some 24;
               palette_count := None; pal := empty_palette |}
     else
       (* no [else] branch in the source: nothing is assigned *)
       mret {| hdr := h; tile_size := tsize; bitmap_bpp := None;
               palette_count := None; pal := empty_palette |}
   else if bmp_type h =? 0x03 then
     mraise (Exit UnsupportedPEH)
   else
     mret {| hdr := h; tile_size := tsize; bitmap_bpp := None;
             palette_count := None; pal := empty_palette |})%file.

End File.

(** ** [MzpFile.extract_tile]: from a decompressed buffer to pixel bytes *)

(** Reading an attribute that was never assigned *)
Definition attribute {A} (o : option A) : result A :=
  match o with
  | Some a => Ok a
  | None => Raise AttributeError
  end.

(** [dec_buf[i]] on bytes gives an integer. *)
Definition byte_at (dec_buf : bytes) (i : Z) : result Z :=
  (b <~ py_getitem dec_buf i ;; Ok (byte_to_Z b))%res.

(** 4bpp: [pack('BB', the_byte.low, the_byte.high)] for every octet *)
Definition byte_low (number : Z) : Z := Z.land number 0x0F.
Definition byte_high (number : Z) : Z := Z.shiftr number 4.

Definition expand_nibbles (dec_buf : bytes) : result bytes :=
  for_each dec_buf (fun octet tile_data =>
    (lo <~ pack_B (byte_low (byte_to_Z octet)) ;;
     hi <~ pack_B (byte_high (byte_to_Z octet)) ;;
     Ok (tile_data ++ [lo; hi]))%res) [].

(** 16bpp colour and the correction byte *)
Definition base_b (P : Z) : Z := Z.shiftl (Z.land P 0x1f) 3.
Definition base_g (P Q : Z) : Z :=
  Z.lor (Z.shiftl (Z.land Q 0x07) 5) (Z.shiftr (Z.land P 0xe0) 3).
Definition base_r (Q : Z) : Z := Z.land Q 0xf8.

Definition r_offset (offset_byte : Z) : Z := Z.shiftr offset_byte 5.
Definition g_offset (offset_byte : Z) : Z := Z.shiftr (Z.land offset_byte 0x1f) 3.
Definition b_offset (offset_byte : Z) : Z := Z.land offset_byte 0x7.

(** [pack('BBB', r + r_offset, g + g_offset, b + b_offset)] *)
Definition pack_rgb (P Q offset_byte : Z) : result bytes :=
  (r <~ pack_B (base_r Q + r_offset offset_byte) ;;
   g <~ pack_B (base_g P Q + g_offset offset_byte) ;;
   b <~ pack_B (base_b P + b_offset offset_byte) ;;
   Ok [r; g; b])%res.

(** The body of [for index in range(self.tile_size)] *)
Definition decode_truecolor_pixel (bpp tsize : Z) (dec_buf : bytes)
    (index : Z) (tile_data : bytes) : result bytes :=
  (P <~ byte_at dec_buf (index * 2) ;;
   Q <~ byte_at dec_buf (index * 2 + 1) ;;
   offset_byte <~ byte_at dec_buf (tsize * 2 + index) ;;
   if bpp =? 32 then
     a <~ byte_at dec_buf (tsize * 3 + index) ;;
     rgb <~ pack_rgb P Q offset_byte ;;
     a' <~ pack_B a ;;
     Ok (tile_data ++ rgb ++ [a'])
   else
     rgb <~ pack_rgb P Q offset_byte ;;
     Ok (tile_data ++ rgb))%res.

Definition decode_truecolor (bpp tsize : Z) (dec_buf : bytes) : result bytes :=
  for_each (range tsize) (decode_truecolor_pixel bpp tsize dec_buf) [].

(** HEP: [r, g, b, a = image_palette[int(i) * 4:int(i) * 4 + 4]] then
    [pack('BBB', r, g, b)] *)
Definition hep_pixel (image_palette : bytes) (i : byte) : result bytes :=
  match py_slice image_palette (byte_to_Z i * 4) (byte_to_Z i * 4 + 4) with
  | [r; g; b; a] =>
      (r' <~ pack_B (byte_to_Z r) ;;
       g' <~ pack_B (byte_to_Z g) ;;
       b' <~ pack_B (byte_to_Z b) ;;
       Ok [r'; g'; b'])%res
  | _ => Raise ValueError  (* wrong number of values to unpack *)
  end.

Definition hep_image_data (dec_buf : bytes) : bytes :=
  py_slice dec_buf 32 (Z.of_nat (length dec_buf) - 1024).

Definition hep_image_palette (dec_buf : bytes) : bytes :=
  py_slice_from dec_buf (-1024).

Definition decode_hep (dec_buf : bytes) : result bytes :=
  for_each (hep_image_data dec_buf) (fun i tile_data =>
    (px <~ hep_pixel (hep_image_palette dec_buf) i ;;
     Ok (tile_data ++ px))%res) [].

(** The part of [extract_tile] after decompression. *)
Definition decode_tile (d : desc) (dec_buf : bytes) : result bytes :=
  (bpp <~ attribute (bitmap_bpp d) ;;
   if bpp =? 4 then expand_nibbles dec_buf
   else if mem bpp [24; 32] && mem (bmp_type (hdr d)) [0x08; 0x0B] then
     decode_truecolor bpp (tile_size d) dec_buf
   else if mem (bmp_type (hdr d)) [0x0C] then decode_hep dec_buf
   else Ok dec_buf)%res.

(** ** The compositor and the encoder *)

(** [self.rows], plus what [logger.error] received in [loop_x]. *)
Record canvas := {
  rows : list bytes;
  log : list Z
}.

(** [try: body except IndexError: handler] *)
Definition try_except_IndexError {A} (body : result A) (handler : result A)
  : result A :=
  match body with
  | Raise IndexError => handler
  | other => other
  end.

(** What [output_png] writes, before compression and checksums: the IHDR
    fields, the PLTE and tRNS payloads when present, and the bytes handed to
    [zlib.compress] for IDAT. *)
Record png := {
  ihdr : option (Z * Z * Z * Z);
  plte : option bytes;
  trns : option bytes;
  row_data : bytes
}.

(** [pack(">IIBB", width, height, depth, color)] *)
Definition pack_ihdr (w h depth color : Z) : result (Z * Z * Z * Z) :=
  if (0 <=? w) && (w <? 2 ^ 32) && (0 <=? h) && (h <? 2 ^ 32)
     && (0 <=? depth) && (depth <=? 255) && (0 <=? color) && (color <=? 255)
  then Ok (w, h, depth, color)
  else Raise StructError.

Definition len {A} (l : list A) : Z := Z.of_nat (length l).

Section Pipeline.

(** [dec_tile index]: the buffer [extract_tile] obtains for entry [index]
    from [mzx0_decompress] (or the exception raised on the way there). *)
Variable dec_tile : Z -> result bytes.

Definition extract_tile (d : desc) (index : Z) : result bytes :=
  (dec_buf <~ dec_tile index ;; decode_tile d dec_buf)%res.

Section Compositor.

Variable d : desc.
Variable bytesprepx : Z.

Let h := hdr d.

(** The body of [for i, tile_row_px in enumerate(chunks(..))], with
    [continue] and [break] written out. *)
Fixpoint loop_scanlines (start_row rowcount : Z) (i : Z)
    (lines : list bytes) (c : canvas) : result canvas :=
  match lines with
  | [] => Ok c
  | tile_row_px :: rest =>
      if i <? tile_crop h then
        loop_scanlines start_row rowcount (i + 1) rest c
      else if i - tile_crop h >=? rowcount then Ok c
      else
        let target := start_row + i - tile_crop h in
        (row <~ py_getitem (rows c) target ;;
         let cur_width := len row in
         let px_count :=
           Z.min (width h) (cur_width + tile_width h) * bytesprepx
           - cur_width in
         c' <~ try_except_IndexError
                 (let temp_row := py_slice_to tile_row_px px_count in
                  rows' <~ py_iadd_item (rows c) target
                             (py_slice temp_row
                                (tile_crop h * bytesprepx)
                                (len temp_row - tile_crop h * bytesprepx)) ;;
                  Ok {| rows := rows'; log := log c |})
                 (Ok {| rows := rows c; log := log c ++ [target] |}) ;;
         loop_scanlines start_row rowcount (i + 1) rest c')%res
  end.

Definition loop_x (y start_row rowcount : Z) (c : canvas) : result canvas :=
  for_each (range (tile_x_count h)) (fun x c =>
    (dec_buf <~ extract_tile d (tile_x_count h * y + x) ;;
     lines <~ chunks dec_buf (tile_width h * bytesprepx) ;;
     loop_scanlines start_row rowcount 0 lines c)%res) c.

Definition start_row_of (y : Z) : Z :=
  y * (tile_height h - tile_crop h * 2).

Definition rowcount_of (y : Z) : Z :=
  Z.min (height h) (start_row_of y + tile_height h)
  - start_row_of y - tile_crop h * 2.

Definition loop_data (c : canvas) : result canvas :=
  for_each (range (tile_y_count h)) (fun y c =>
    loop_x y (start_row_of y) (rowcount_of y) c) c.

(** [self.rows = [b''] * (self.height - self.tile_y_count * self.tile_crop)] *)
Definition allocated_rows : list bytes :=
  repeat [] (Z.to_nat (height h - tile_y_count h * tile_crop h)).

(** The width and height [output_png] puts in IHDR. *)
Definition declared_width : Z :=
  width h - tile_x_count h * tile_crop h * 2.

Definition declared_height : Z :=
  height h - tile_y_count h * tile_crop h * 2.

Definition output_png (c : canvas) : result png :=
  (hp <~ (if is_indexed_bitmap (bmp_type h) then
            i <~ pack_ihdr declared_width declared_height 8 3 ;;
            Ok (Some i, Some (palettepng (pal d)), Some (transpng (pal d)))
          else
            bpp <~ attribute (bitmap_bpp d) ;;
            if bpp =? 24 then
              i <~ pack_ihdr declared_width declared_height 8 2 ;;
              Ok (Some i, None, None)
            else if bpp =? 32 then
              i <~ pack_ihdr declared_width declared_height 8 6 ;;
              Ok (Some i, None, None)
            else Ok (None, None, None)) ;;
   Ok {| ihdr := fst (fst hp); plte := snd (fst hp); trns := snd hp;
         row_data := flat_map (fun row => x00 :: row) (rows c) |})%res.

End Compositor.

(** [MzpFile.__init__]: the canvas handed to [output_png] and what
    [output_png] writes. *)
Definition mzp_init (data : bytes) (real_offset : nat)
  : result (canvas * png) :=
  (dp <~ extract_desc data real_offset 0%nat ;;
   let d := fst dp in
   bpp <~ attribute (bitmap_bpp d) ;;
   let bytesprepx := if bpp / 8 =? 0 then 1 else bpp / 8 in
   let c0 := {| rows := allocated_rows d; log := [] |} in
   c <~ loop_data d bytesprepx c0 ;;
   out <~ output_png d c ;;
   Ok (c, out))%res.

End Pipeline.

(** ** The orders the specification words differently

    Two readings of the specification, written out so that they can be
    compared with the functions above. *)


(** A HEP palette quad read as B, G, R, A, of which R, G, B are emitted in
    that order. *)
Definition spec_hep_pixel (image_palette : bytes) (i : byte) : result bytes :=
  match py_slice image_palette (byte_to_Z i * 4) (byte_to_Z i * 4 + 4) with
  | [b; g; r; a] => Ok [r; g; b]
  | _ => Raise ValueError
  end.

Definition spec_decode_hep (dec_buf : bytes) : result bytes :=
  for_each (hep_image_data dec_buf) (fun i tile_data =>
    (px <~ spec_hep_pixel (hep_image_palette dec_buf) i ;;
     Ok (tile_data ++ px))%res) [].

(** ** Sample containers *)

Definition byte_of_Z (v : Z) : byte :=
  match Byte.of_N (Z.to_N (v mod 256)) with
  | Some b => b
  | None => x00
  end.

Definition u16_bytes (v : Z) : bytes := [byte_of_Z v; byte_of_Z (v / 256)].

(** [pack('<HHHHHHHBB', ..)]: a descriptor with the given fields *)
Definition mk_header (w h tw th tx ty type depth crop : Z) : bytes :=
  u16_bytes w ++ u16_bytes h ++ u16_bytes tw ++ u16_bytes th
  ++ u16_bytes tx ++ u16_bytes ty ++ u16_bytes type
  ++ [byte_of_Z depth; byte_of_Z crop].

(** Every tile decompresses to 48 zero bytes (a 4x4 tile of 24bpp planes). *)
Definition zero_tiles (index : Z) : result bytes := Ok (repeat x00 48).

(** An 8x8 RGB image cut into 2x2 tiles of 4x4 with a crop of 1. *)
Definition sample_crop_2x2 : bytes := mk_header 8 8 4 4 2 2 0x08 0x14 1.

(** A 4x8 RGB image declared with three rows of 4x4 tiles and a crop of 1. *)
Definition sample_three_rows : bytes := mk_header 4 8 4 4 1 3 0x08 0x14 1.

(** A HEP container whose depth byte is 0x00. *)
Definition sample_hep_depth0 : bytes := mk_header 4 4 4 4 1 1 0x0C 0x00 0.

(** An indexed container of the given depth followed by 256 palette entries;
    the four bytes of the entry stored at physical index [k] are all
    [k mod 128], so that the remapped alpha [2 * (k mod 128) + ..] tells the
    entries apart. *)
Definition sample_indexed (depth : Z) : bytes :=
  mk_header 4 4 4 4 1 1 0x01 depth 0
  ++ map (fun n => byte_of_Z ((n / 4) mod 128)) (range 1024).

(** A HEP buffer: 32 header bytes, one pixel of index 0, and a palette whose
    quad 0 is 1, 2, 3, 4. *)
Definition sample_hep_buf : bytes :=
  repeat x00 32 ++ [x00] ++ [x01; x02; x03; x04] ++ repeat x00 1020.

(** The descriptor of [sample_crop_2x2], as [extract_desc] returns it. *)
Definition sample_crop_desc : desc :=
  {| hdr := {| width := 8; height := 8; tile_width := 4; tile_height := 4;
               tile_x_count := 2; tile_y_count := 2; bmp_type := 0x08;
               bmp_depth := 0x14; tile_crop := 1 |};
     tile_size := 16; bitmap_bpp := Some 24; palette_count := None;
     pal := empty_palette |}.

(** ** The PNG writer

    The [write_*] functions append to the open output file; each is modelled
    as the bytes it writes.  [zlib.crc32] and [zlib.compress] are library
    functions and are parameters. *)

(** [pack(">I", v)]: four bytes, the most significant first *)
Definition pack_I (v : Z) : result bytes :=
  if (0 <=? v) && (v <? 2 ^ 32) then
    Ok [byte_of_Z (v / 2 ^ 24); byte_of_Z (v / 2 ^ 16);
        byte_of_Z (v / 2 ^ 8); byte_of_Z v]
  else Raise StructError.

(** The integer that a reader of the file finds in a four-byte big-endian
    field. *)
Definition be32 (s : bytes) : Z :=
  match s with
  | [b3; b2; b1; b0] =>
      byte_to_Z b3 * 2 ^ 24 + byte_to_Z b2 * 2 ^ 16 + byte_to_Z b1 * 2 ^ 8
      + byte_to_Z b0
  | _ => 0
  end.

(** [b'\x89\x50\x4E\x47\x0D\x0A\x1A\x0A'] *)
Definition write_pngsig : bytes := [x89; x50; x4e; x47; x0d; x0a; x1a; x0a].

(** The chunk types [b"IHDR"], [b"PLTE"], [b"tRNS"], [b"IDAT"], [b"IEND"] *)
Definition type_IHDR : bytes := [x49; x48; x44; x52].
Definition type_PLTE : bytes := [x50; x4c; x54; x45].
Definition type_tRNS : bytes := [x74; x52; x4e; x53].
Definition type_IDAT : bytes := [x49; x44; x41; x54].
Definition type_IEND : bytes := [x49; x45; x4e; x44].

Section PngWriter.

(** [zlib.crc32(s, 0)] *)
Variable crc32 : bytes -> Z.

(** [zlib.compress(s)] *)
Variable compress : bytes -> bytes.

Definition write_pngchunk_withcrc (type data : bytes) : result bytes :=
  (n <~ pack_I (len data) ;;
   crc <~ pack_I (Z.land (crc32 (type ++ data)) 0xffffffff) ;;
   Ok (n ++ type ++ data ++ crc))%res.

(** [chunk = pack(">IIBB", width, height, depth, color) + b'\0\0\0'] *)
Definition write_ihdr (width height depth color : Z) : result bytes :=
  (w <~ pack_I width ;;
   h <~ pack_I height ;;
   dp <~ pack_B depth ;;
   cl <~ pack_B color ;;
   write_pngchunk_withcrc type_IHDR (w ++ h ++ [dp; cl] ++ [x00; x00; x00]))%res.

Definition write_plte (palettebin : bytes) : result bytes :=
  write_pngchunk_withcrc type_PLTE palettebin.

Definition write_trns (transparencydata : bytes) : result bytes :=
  write_pngchunk_withcrc type_tRNS transparencydata.

Definition write_idat (pixels : bytes) : result bytes :=
  write_pngchunk_withcrc type_IDAT (compress pixels).

Definition write_iend : result bytes :=
  write_pngchunk_withcrc type_IEND [].

(** The content of the file [output_png] leaves when it returns. *)
Definition output_png_file (d : desc) (c : canvas) : result bytes :=
  (head <~ (if is_indexed_bitmap (bmp_type (hdr d)) then
              i <~ write_ihdr (declared_width d) (declared_height d) 8 3 ;;
              p <~ write_plte (palettepng (pal d)) ;;
              t <~ write_trns (transpng (pal d)) ;;
              Ok (i ++ p ++ t)
            else
              bpp <~ attribute (bitmap_bpp d) ;;
              if bpp =? 24 then
                write_ihdr (declared_width d) (declared_height d) 8 2
              else if bpp =? 32 then
                write_ihdr (declared_width d) (declared_height d) 8 6
              else Ok []) ;;
   idat <~ write_idat (flat_map (fun row => x00 :: row) (rows c)) ;;
   iend <~ write_iend ;;
   Ok (write_pngsig ++ head ++ idat ++ iend))%res.

End PngWriter.

(** * Properties *)

(** ** Bytes and packing *)

Lemma byte_to_Z_range (b : byte) : 0 <= byte_to_Z b <= 255.
Proof.
  unfold byte_to_Z. pose proof (Byte.to_N_bounded b). lia.
Qed.

Lemma pack_B_ok (v : Z) :
  0 <= v <= 255 -> exists b, pack_B v = Ok b /\ byte_to_Z b = v.
Proof.
  intros Hv. unfold pack_B.
  replace ((0 <=? v) && (v <=? 255)) with true
    by (symmetry; apply andb_true_iff; split; apply Z.leb_le; lia).
  destruct (Byte.of_N (Z.to_N v)) as [b|] eqn:E.
  - exists b. split; [reflexivity|].
    unfold byte_to_Z. rewrite (Byte.to_of_N _ E). lia.
  - pose proof (Byte.to_of_N_option_map (Z.to_N v)) as H.
    rewrite E in H. simpl in H.
    destruct (N.leb_spec (Z.to_N v) 255); [discriminate | lia].
Qed.

Lemma pack_B_byte (b : byte) : pack_B (byte_to_Z b) = Ok b.
Proof.
  destruct (pack_B_ok (byte_to_Z b) (byte_to_Z_range b)) as (b' & E & Hb).
  rewrite E. f_equal.
  unfold byte_to_Z in Hb. apply N2Z.inj in Hb.
  assert (Some b' = Some b) as H; [|now injection H as ->].
  rewrite <- (Byte.of_to_N b), <- (Byte.of_to_N b'). now rewrite Hb.
Qed.

(** ** Alpha remapping (palette builder) *)

Lemma expand_alpha_formula (a : Z) :
  expand_alpha a = if a <? 128 then a * 2 + Z.shiftr a 6 else 255.
Proof.
  unfold expand_alpha. change 0x80 with 128.
  destruct (a <? 128); [|reflexivity].
  rewrite Z.shiftl_mul_pow2 by lia. reflexivity.
Qed.

Lemma expand_alpha_range (a : Z) : 0 <= a <= 255 -> 0 <= expand_alpha a <= 255.
Proof.
  intros Ha. rewrite expand_alpha_formula.
  destruct (Z.ltb_spec a 128); [|lia].
  rewrite Z.shiftr_div_pow2 by lia. change (2 ^ 6) with 64.
  assert (0 <= a / 64 <= 1).
  { split; [apply Z.div_pos; lia|].
    apply Z.lt_succ_r. apply Z.div_lt_upper_bound; lia. }
  lia.
Qed.

Lemma read_four (data : bytes) (pos : nat) (r g b raw : byte) :
  firstn 4 (skipn pos data) = [r; g; b; raw] ->
  firstn 1 (skipn pos data) = [r]
  /\ firstn 1 (skipn (pos + 1) data) = [g]
  /\ firstn 1 (skipn (pos + 1 + 1) data) = [b]
  /\ firstn 1 (skipn (pos + 1 + 1 + 1) data) = [raw].
Proof.
  intros H.
  replace (pos + 1 + 1 + 1)%nat with (3 + pos)%nat by lia.
  replace (pos + 1 + 1)%nat with (2 + pos)%nat by lia.
  replace (pos + 1)%nat with (1 + pos)%nat by lia.
  rewrite <- !skipn_skipn.
  destruct (skipn pos data) as [|r' [|g' [|b' [|raw' rest]]]];
    try discriminate.
  injection H as -> -> -> ->. repeat split; reflexivity.
Qed.

(** One pass through the body of the palette loops, when four bytes are
    left in the file. *)
Lemma read_palette_entry_eq
    (data : bytes) (pos : nat) (p : palette) (r g b raw a : byte) :
  firstn 4 (skipn pos data) = [r; g; b; raw] ->
  pack_B (expand_alpha (byte_to_Z raw)) = Ok a ->
  read_palette_entry data p pos
  = Ok ({| paletteblob := paletteblob p ++ [b; g; r; a];
           palettepng := palettepng p ++ [r; g; b];
           transpng := transpng p ++ [a] |}, (pos + 4)%nat).
Proof.
  intros H4 Ea.
  destruct (read_four data pos r g b raw H4) as (Hr & Hg & Hb & Ha).
  unfold read_palette_entry, mbind, read, lift, mret.
  rewrite Hr. cbn [length]. rewrite Hg. cbn [length].
  rewrite Hb. cbn [length]. rewrite Ha. cbn [length unpack_B].
  rewrite Ea. cbn [app]. do 2 f_equal. lia.
Qed.

(** One pass through the body of the palette loops: the alpha appended to
    the strings is [expand] of the raw alpha byte that was read. *)
Lemma palette_entry_alpha_is_expanded
    (data : bytes) (pos : nat) (p : palette) (r g b raw : byte) :
  firstn 4 (skipn pos data) = [r; g; b; raw] ->
  exists a : byte,
    read_palette_entry data p pos
    = Ok ({| paletteblob := paletteblob p ++ [b; g; r; a];
             palettepng := palettepng p ++ [r; g; b];
             transpng := transpng p ++ [a] |}, (pos + 4)%nat)
    /\ byte_to_Z a = expand_alpha (byte_to_Z raw)
    /\ expand_alpha (byte_to_Z raw)
       = (if byte_to_Z raw <? 128
          then byte_to_Z raw * 2 + Z.shiftr (byte_to_Z raw) 6
          else 255)
    /\ (128 <= byte_to_Z raw -> byte_to_Z a = 255)
    /\ expand_alpha 0 = 0
    /\ expand_alpha 127 = 255.
Proof.
  intros H4.
  destruct (pack_B_ok (expand_alpha (byte_to_Z raw))
              (expand_alpha_range _ (byte_to_Z_range raw))) as (a & Ea & Hza).
  exists a. repeat split.
  - now apply (read_palette_entry_eq data pos p r g b raw a).
  - exact Hza.
  - apply expand_alpha_formula.
  - intros Hbig. rewrite Hza, expand_alpha_formula.
    destruct (Z.ltb_spec (byte_to_Z raw) 128); [lia | reflexivity].
Qed.

(** ** 16bpp colour expansion (tile decoder) *)

(** C5, as the specification states it, fails: the pair [P = 0xF8],
    [Q = 0x00] does not have the base colour 0, 0, 0 and does not decode to
    7, 3, 7 under the correction byte 0xFF. *)
Lemma truecolor_example_refuted :
  ~ (base_b 0xF8 = 0 /\ base_g 0xF8 0x00 = 0 /\ base_r 0x00 = 0
     /\ pack_rgb 0xF8 0x00 0xFF = Ok [x07; x03; x07]).
Proof.
  intros (Hb & _). vm_compute in Hb. discriminate.
Qed.

(** C5, amended.  For [P = 0xF8], [Q = 0x00] the base colour is [b = 192],
    [g = 28], [r = 0]; the correction byte 0xFF adds 7, 3 and 7 to r, g and
    b, and the decoded pixel is [r = 7], [g = 31], [b = 199]. *)
Theorem truecolor_example :
  base_b 0xF8 = 192 /\ base_g 0xF8 0x00 = 28 /\ base_r 0x00 = 0
  /\ r_offset 0xFF = 7 /\ g_offset 0xFF = 3 /\ b_offset 0xFF = 7
  /\ pack_rgb 0xF8 0x00 0xFF = Ok [x07; x1f; xc7]
  /\ map byte_to_Z [x07; x1f; xc7] = [7; 31; 199].
Proof.
  repeat split; reflexivity.
Qed.

Lemma base_r_bound (Q : byte) : 0 <= base_r (byte_to_Z Q) <= 248.
Proof.
  unfold base_r. destruct Q; vm_compute; split; discriminate.
Qed.

Lemma base_b_bound (P : byte) : 0 <= base_b (byte_to_Z P) <= 248.
Proof.
  unfold base_b. destruct P; vm_compute; split; discriminate.
Qed.

Lemma base_g_high_bound (Q : byte) :
  0 <= Z.shiftl (Z.land (byte_to_Z Q) 0x07) 5 <= 224.
Proof.
  destruct Q; vm_compute; split; discriminate.
Qed.

Lemma base_g_low_bound (P : byte) :
  0 <= Z.shiftr (Z.land (byte_to_Z P) 0xe0) 3 <= 28.
Proof.
  destruct P; vm_compute; split; discriminate.
Qed.

Lemma base_g_bound (P Q : byte) :
  0 <= base_g (byte_to_Z P) (byte_to_Z Q) <= 252.
Proof.
  unfold base_g.
  pose proof (base_g_high_bound Q) as Hh.
  pose proof (base_g_low_bound P) as Hl.
  set (hi := Z.shiftl _ 5) in *. set (lo := Z.shiftr _ 3) in *.
  pose proof (Z.add_lor_land hi lo) as Hsum.
  assert (0 <= Z.land hi lo) by (apply Z.land_nonneg; lia).
  assert (0 <= Z.lor hi lo) by (apply Z.lor_nonneg; lia).
  lia.
Qed.

Lemma offsets_bound (c : byte) :
  0 <= r_offset (byte_to_Z c) <= 7
  /\ 0 <= g_offset (byte_to_Z c) <= 3
  /\ 0 <= b_offset (byte_to_Z c) <= 7.
Proof.
  unfold r_offset, g_offset, b_offset.
  destruct c; vm_compute; repeat split; discriminate.
Qed.

Lemma pack_rgb_ok (P Q c : byte) :
  exists r g b,
    pack_rgb (byte_to_Z P) (byte_to_Z Q) (byte_to_Z c) = Ok [r; g; b].
Proof.
  pose proof (base_r_bound Q). pose proof (base_g_bound P Q).
  pose proof (base_b_bound P).
  destruct (offsets_bound c) as (? & ? & ?).
  unfold pack_rgb.
  destruct (pack_B_ok (base_r (byte_to_Z Q) + r_offset (byte_to_Z c)))
    as (r & -> & _); [lia|].
  destruct (pack_B_ok (base_g (byte_to_Z P) (byte_to_Z Q)
                       + g_offset (byte_to_Z c))) as (g & -> & _); [lia|].
  destruct (pack_B_ok (base_b (byte_to_Z P) + b_offset (byte_to_Z c)))
    as (b & -> & _); [lia|].
  now exists r, g, b.
Qed.

Lemma byte_at_ok (dec_buf : bytes) (i v : Z) :
  byte_at dec_buf i = Ok v -> exists b, v = byte_to_Z b.
Proof.
  unfold byte_at, rbind. destruct (py_getitem dec_buf i) as [b|]; [|discriminate].
  intros [= <-]. now exists b.
Qed.

Lemma byte_at_raises (dec_buf : bytes) (i : Z) (e : exn) :
  byte_at dec_buf i = Raise e -> e = IndexError.
Proof.
  unfold byte_at, py_getitem, py_position, rbind.
  repeat match goal with
         | |- context [if ?c then _ else _] => destruct c
         | |- context [match nth_error ?l ?n with _ => _ end] =>
             destruct (nth_error l n)
         end; congruence.
Qed.

Lemma decode_truecolor_pixel_raises
    (bpp tsize : Z) (dec_buf : bytes) (index : Z) (tile_data : bytes) (e : exn) :
  decode_truecolor_pixel bpp tsize dec_buf index tile_data = Raise e ->
  e = IndexError.
Proof.
  unfold decode_truecolor_pixel.
  destruct (byte_at dec_buf (index * 2)) as [P|e1] eqn:EP; cbn [rbind];
    [|intros [= <-]; eapply byte_at_raises; eassumption].
  destruct (byte_at dec_buf (index * 2 + 1)) as [Q|e1] eqn:EQ; cbn [rbind];
    [|intros [= <-]; eapply byte_at_raises; eassumption].
  destruct (byte_at dec_buf (tsize * 2 + index)) as [c|e1] eqn:Ec; cbn [rbind];
    [|intros [= <-]; eapply byte_at_raises; eassumption].
  destruct (byte_at_ok _ _ _ EP) as (P' & ->).
  destruct (byte_at_ok _ _ _ EQ) as (Q' & ->).
  destruct (byte_at_ok _ _ _ Ec) as (c' & ->).
  destruct (pack_rgb_ok P' Q' c') as (r & g & b & ->).
  destruct (bpp =? 32); cbn [rbind]; [|discriminate].
  destruct (byte_at dec_buf (tsize * 3 + index)) as [a|e1] eqn:Ea; cbn [rbind];
    [|intros [= <-]; eapply byte_at_raises; eassumption].
  destruct (byte_at_ok _ _ _ Ea) as (a' & ->).
  rewrite pack_B_byte. discriminate.
Qed.

Lemma for_each_raises {A S} (P : exn -> Prop) (body : A -> S -> result S) :
  (forall a s e, body a s = Raise e -> P e) ->
  forall l s e, for_each l body s = Raise e -> P e.
Proof.
  intros Hbody l. induction l as [|a l IH]; intros s e; cbn [for_each].
  - discriminate.
  - destruct (body a s) as [s'|e'] eqn:E; cbn [rbind].
    + apply IH.
    + intros [= <-]. eapply Hbody; eassumption.
Qed.

(** C8.  For every byte pair (P, Q) and correction byte c, the corrected
    channels [r + (c >> 5)], [g + ((c & 0x1F) >> 3)] and [b + (c & 0x07)]
    lie in 0..255, packing them succeeds, and decoding a true-colour tile
    never raises a [struct.error], whatever the buffer. *)
Theorem truecolor_channels_fit_a_byte (P Q c : byte) :
  0 <= base_r (byte_to_Z Q) + r_offset (byte_to_Z c) <= 255
  /\ 0 <= base_g (byte_to_Z P) (byte_to_Z Q) + g_offset (byte_to_Z c) <= 255
  /\ 0 <= base_b (byte_to_Z P) + b_offset (byte_to_Z c) <= 255
  /\ (exists r g b,
        pack_rgb (byte_to_Z P) (byte_to_Z Q) (byte_to_Z c) = Ok [r; g; b]
        /\ byte_to_Z r = base_r (byte_to_Z Q) + r_offset (byte_to_Z c)
        /\ byte_to_Z g
           = base_g (byte_to_Z P) (byte_to_Z Q) + g_offset (byte_to_Z c)
        /\ byte_to_Z b = base_b (byte_to_Z P) + b_offset (byte_to_Z c))
  /\ (forall bpp tsize dec_buf,
        decode_truecolor bpp tsize dec_buf <> Raise StructError).
Proof.
  pose proof (base_r_bound Q). pose proof (base_g_bound P Q).
  pose proof (base_b_bound P).
  destruct (offsets_bound c) as (? & ? & ?).
  split; [lia|]. split; [lia|]. split; [lia|]. split.
  - unfold pack_rgb.
    destruct (pack_B_ok (base_r (byte_to_Z Q) + r_offset (byte_to_Z c)))
      as (r & -> & Hr); [lia|].
    destruct (pack_B_ok (base_g (byte_to_Z P) (byte_to_Z Q)
                         + g_offset (byte_to_Z c))) as (g & -> & Hg); [lia|].
    destruct (pack_B_ok (base_b (byte_to_Z P) + b_offset (byte_to_Z c)))
      as (b & -> & Hb); [lia|].
    exists r, g, b. repeat split; assumption.
  - intros bpp tsize dec_buf E.
    apply (for_each_raises (fun e => e = IndexError)) in E; [discriminate|].
    intros a s e. apply decode_truecolor_pixel_raises.
Qed.

(** ** Header parsing *)

Lemma unpack_header_length (raw : bytes) (h : header) :
  unpack_header raw = Ok h -> length raw = 16%nat.
Proof.
  unfold unpack_header.
  do 17 (destruct raw as [|? raw]; try discriminate). reflexivity.
Qed.

(** C6 is not what the code does.  For a HEP descriptor (type 0x0C) whose
    depth is not 0x11, [extract_desc] does not fail with the "Unknown depth"
    exit of its sibling branches: it returns normally and leaves
    [bitmap_bpp] unset, and the run only stops afterwards, in [__init__],
    with an [AttributeError] on [self.bitmap_bpp]. *)
Theorem hep_unknown_depth_passes_header_parsing
    (dec_tile : Z -> result bytes) (data : bytes) (real_offset : nat)
    (h : header) :
  unpack_header (firstn 16 (skipn real_offset data)) = Ok h ->
  bmp_type h = 0x0C ->
  bmp_depth h <> 0x11 ->
  extract_desc data real_offset 0%nat
  = Ok ({| hdr := h; tile_size := tile_width h * tile_height h;
           bitmap_bpp := None; palette_count := None;
           pal := empty_palette |}, (real_offset + 16)%nat)
  /\ extract_desc data real_offset 0%nat <> Raise (Exit UnknownDepth)
  /\ mzp_init dec_tile data real_offset = Raise AttributeError.
Proof.
  intros H Ht Hd.
  assert (extract_desc data real_offset 0%nat
          = Ok ({| hdr := h; tile_size := tile_width h * tile_height h;
                   bitmap_bpp := None; palette_count := None;
                   pal := empty_palette |}, (real_offset + 16)%nat)) as E.
  { unfold extract_desc, mbind, seek, read, lift.
    change (Pos.to_nat 16) with 16%nat. rewrite H.
    rewrite (unpack_header_length _ _ H).
    unfold is_indexed_bitmap, mem. rewrite Ht. cbn.
    apply Z.eqb_neq in Hd. now rewrite Hd. }
  split; [exact E|]. split.
  - rewrite E. discriminate.
  - unfold mzp_init. rewrite E. reflexivity.
Qed.

(** The HEP container with depth 0x00. *)
Lemma hep_unknown_depth_passes_header_parsing_witness :
  (exists d pos,
     extract_desc sample_hep_depth0 0%nat 0%nat = Ok (d, pos)
     /\ bitmap_bpp d = None)
  /\ mzp_init zero_tiles sample_hep_depth0 0%nat = Raise AttributeError.
Proof.
  destruct (hep_unknown_depth_passes_header_parsing zero_tiles
              sample_hep_depth0 0%nat
              {| width := 4; height := 4; tile_width := 4; tile_height := 4;
                 tile_x_count := 1; tile_y_count := 1; bmp_type := 0x0C;
                 bmp_depth := 0x00; tile_crop := 0 |}
              eq_refl eq_refl ltac:(simpl; lia)) as (E & _ & Hinit).
  split; [|exact Hinit].
  eexists _, _. split; [exact E | reflexivity].
Defined.

Lemma extract_desc_bpp (data : bytes) (real_offset pos0 : nat)
    (d : desc) (pos : nat) :
  extract_desc data real_offset pos0 = Ok (d, pos) ->
  is_indexed_bitmap (bmp_type (hdr d)) = true
  \/ bitmap_bpp d = Some 24 \/ bitmap_bpp d = Some 32 \/ bitmap_bpp d = None.
Proof.
  unfold extract_desc, mbind, seek, read, lift, mraise, mret.
  destruct (unpack_header _) as [h|]; [|discriminate].
  destruct (negb _); [discriminate|].
  destruct (is_indexed_bitmap (bmp_type h)) eqn:Ei.
  - match goal with
    | |- match ?c ?p with _ => _ end = _ -> _ =>
        destruct (c p) as [[bc p1]|]; [|discriminate]
    end.
    match goal with
    | |- match ?c with _ => _ end = _ -> _ =>
        destruct c as [[pl p2]|]; [|discriminate]
    end.
    intros [= <- <-]. left. exact Ei.
  - repeat match goal with
           | |- (if ?c then _ else _) _ = _ -> _ => destruct c
           end;
      try discriminate; intros [= <- <-]; cbn; auto.
Qed.

(** ** The canvas *)

Lemma update_nth_length {A} (l : list A) (n : nat) (f : A -> A) :
  length (update_nth l n f) = length l.
Proof.
  revert n. induction l as [|a l IH]; intros [|n]; cbn; auto.
Qed.

Lemma py_getitem_past_end {A} (l : list A) (i : Z) :
  len l <= i -> py_getitem l i = Raise IndexError.
Proof.
  unfold py_getitem, py_position, len. intros Hi.
  destruct (Z.leb_spec 0 i), (Z.ltb_spec i (Z.of_nat (length l))); cbn;
    try lia;
    destruct (Z.leb_spec (- Z.of_nat (length l)) i), (Z.ltb_spec i 0); cbn;
    try lia; reflexivity.
Qed.

(** Once [len(self.rows[target])] has been evaluated, the [+=] on the same
    index cannot raise: the [except IndexError] handler of [loop_x] is never
    entered. *)
Lemma py_iadd_item_after_getitem (l : list bytes) (i : Z) (row extra : bytes) :
  py_getitem l i = Ok row ->
  exists l', py_iadd_item l i extra = Ok l' /\ length l' = length l.
Proof.
  unfold py_getitem, py_iadd_item.
  destruct (py_position l i) as [n|]; cbn [rbind]; [|discriminate].
  intros _. eexists. split; [reflexivity | apply update_nth_length].
Qed.

Lemma for_each_invariant {A S} (I : S -> Prop) (body : A -> S -> result S) :
  (forall a s s', I s -> body a s = Ok s' -> I s') ->
  forall l s s', I s -> for_each l body s = Ok s' -> I s'.
Proof.
  intros Hbody l. induction l as [|a l IH]; intros s s' Hs; cbn [for_each].
  - now intros [= <-].
  - destruct (body a s) as [s1|] eqn:E; cbn [rbind]; [|discriminate].
    apply IH. eapply Hbody; eassumption.
Qed.

Section CanvasShape.

Variable dec_tile : Z -> result bytes.
Variable d : desc.
Variable bytesprepx : Z.

(** The compositor never changes the number of rows and never logs. *)
Local Abbreviation same_shape c0 :=
  (fun c : canvas => length (rows c) = length (rows c0) /\ log c = log c0).

Lemma loop_scanlines_shape (start_row rowcount : Z) (lines : list bytes) :
  forall i c c',
    loop_scanlines d bytesprepx start_row rowcount i lines c = Ok c' ->
    same_shape c c'.
Proof.
  induction lines as [|tile_row_px rest IH]; intros i c c';
    cbn [loop_scanlines].
  - intros [= <-]. now split.
  - destruct (i <? tile_crop (hdr d)); [apply IH|].
    destruct (i - tile_crop (hdr d) >=? rowcount);
      [intros [= <-]; now split|].
    destruct (py_getitem (rows c) _) as [row|] eqn:Eg; cbn [rbind];
      [|discriminate].
    match goal with
    | |- context [py_iadd_item (rows c) ?t ?x] =>
        destruct (py_iadd_item_after_getitem (rows c) t row x Eg)
          as (l' & -> & Hl')
    end.
    cbn [rbind try_except_IndexError]. intros H.
    apply IH in H. destruct H as (H1 & H2). cbn in H1, H2.
    split; congruence.
Qed.

Lemma loop_data_shape (c c' : canvas) :
  loop_data dec_tile d bytesprepx c = Ok c' -> same_shape c c'.
Proof.
  unfold loop_data.
  apply (for_each_invariant (same_shape c)); [|now split].
  intros y s s' Hs. unfold loop_x.
  apply (for_each_invariant (same_shape c)); [|exact Hs].
  clear. intros x s s' (Hs1 & Hs2).
  destruct (extract_tile dec_tile d _) as [dec_buf|]; cbn [rbind];
    [|discriminate].
  destruct (chunks dec_buf _) as [lines|]; cbn [rbind]; [|discriminate].
  intros H. apply loop_scanlines_shape in H. destruct H as (H1 & H2).
  split; congruence.
Qed.

End CanvasShape.

Lemma allocated_rows_length (d : desc) :
  len (allocated_rows d)
  = Z.max 0 (height (hdr d) - tile_y_count (hdr d) * tile_crop (hdr d)).
Proof.
  unfold allocated_rows, len. rewrite repeat_length. lia.
Qed.

Lemma pack_ihdr_ok (w h depth color : Z) (i : Z * Z * Z * Z) :
  pack_ihdr w h depth color = Ok i -> i = (w, h, depth, color).
Proof.
  unfold pack_ihdr. destruct (_ && _); congruence.
Qed.

Lemma output_png_ihdr (d : desc) (c : canvas) (out : png) :
  is_indexed_bitmap (bmp_type (hdr d)) = true
  \/ bitmap_bpp d = Some 24 \/ bitmap_bpp d = Some 32 \/ bitmap_bpp d = None ->
  output_png d c = Ok out ->
  exists depth color,
    ihdr out = Some (declared_width d, declared_height d, depth, color).
Proof.
  intros Hd. unfold output_png.
  destruct (is_indexed_bitmap (bmp_type (hdr d))).
  - destruct (pack_ihdr _ _ 8 3) as [i|] eqn:Ei; cbn [rbind]; [|discriminate].
    apply pack_ihdr_ok in Ei. subst i. intros [= <-]. cbn. eauto.
  - destruct Hd as [Hd|[Hd|[Hd|Hd]]]; [discriminate| | |];
      rewrite Hd; cbn [attribute rbind]; [| |discriminate].
    + change (24 =? 24) with true. cbv iota.
      destruct (pack_ihdr _ _ 8 2) as [i|] eqn:Ei; cbn [rbind];
        [|discriminate].
      apply pack_ihdr_ok in Ei. subst i. intros [= <-]. cbn. eauto.
    + change (32 =? 24) with false. change (32 =? 32) with true. cbv iota.
      destruct (pack_ihdr _ _ 8 6) as [i|] eqn:Ei; cbn [rbind];
        [|discriminate].
      apply pack_ihdr_ok in Ei. subst i. intros [= <-]. cbn. eauto.
Qed.

(** C1 is not what the code does.  Whenever a run completes, the canvas
    handed to [output_png] has [height - tile_y_count * tile_crop] rows (the
    crop counted once, and no row if that is negative), while the height
    written in IHDR is [height - tile_y_count * tile_crop * 2]: the two
    differ as soon as [tile_y_count * tile_crop] is positive. *)
Theorem canvas_rows_and_declared_height
    (dec_tile : Z -> result bytes) (data : bytes) (real_offset : nat)
    (c : canvas) (out : png) :
  mzp_init dec_tile data real_offset = Ok (c, out) ->
  exists d pos w depth color,
    extract_desc data real_offset 0%nat = Ok (d, pos)
    /\ len (rows c)
       = Z.max 0 (height (hdr d) - tile_y_count (hdr d) * tile_crop (hdr d))
    /\ ihdr out
       = Some (w, height (hdr d) - tile_y_count (hdr d) * tile_crop (hdr d) * 2,
               depth, color).
Proof.
  unfold mzp_init.
  destruct (extract_desc data real_offset 0%nat) as [[d pos]|] eqn:Ed;
    cbn [rbind fst]; [|discriminate].
  destruct (attribute (bitmap_bpp d)) as [bpp|]; cbn [rbind]; [|discriminate].
  destruct (loop_data dec_tile d _ _) as [c1|] eqn:El; cbn [rbind];
    [|discriminate].
  destruct (output_png d c1) as [o|] eqn:Eo; cbn [rbind]; [|discriminate].
  intros [= <- <-].
  apply loop_data_shape in El. destruct El as (Hrows & _). cbn in Hrows.
  destruct (output_png_ihdr d c1 o (extract_desc_bpp _ _ _ _ _ Ed) Eo)
    as (depth & color & Hi).
  exists d, pos, (declared_width d), depth, color.
  split; [reflexivity|]. split; [|exact Hi].
  unfold len. rewrite Hrows. apply allocated_rows_length.
Qed.

(** The 2x2 grid of 4x4 tiles with a crop of 1 and an 8x8 image: the run
    completes with six canvas rows, and IHDR declares a height of four. *)
Lemma canvas_rows_and_declared_height_witness :
  exists c out,
    mzp_init zero_tiles sample_crop_2x2 0%nat = Ok (c, out)
    /\ len (rows c) = 6
    /\ ihdr out = Some (4, 4, 8, 2)
    /\ map len (rows c) = [12; 12; 12; 12; 0; 0].
Proof.
  destruct (mzp_init zero_tiles sample_crop_2x2 0%nat) as [[c out]|] eqn:E;
    [|vm_compute in E; discriminate].
  destruct (canvas_rows_and_declared_height zero_tiles sample_crop_2x2 0%nat
              c out E) as (d & pos & w & depth & color & Ed & Hrows & Hi).
  exists c, out. vm_compute in Ed. injection Ed as <- <-.
  vm_compute in E. injection E as <- <-.
  repeat split; reflexivity.
Defined.

(** C2 is not what the code does.  A scanline that is neither cropped nor
    beyond [rowcount], and whose target row [start_row + i - tile_crop] lies
    past the last allocated row, makes [loop_x] raise [IndexError] at
    [len(self.rows[..])], which is outside the [try]: nothing is logged, the
    scanline is not dropped, the remaining scanlines are not processed. *)
Theorem row_past_the_canvas_is_fatal
    (d : desc) (bytesprepx start_row rowcount i : Z)
    (tile_row_px : bytes) (rest : list bytes) (c : canvas) :
  tile_crop (hdr d) <= i ->
  i - tile_crop (hdr d) < rowcount ->
  len (rows c) <= start_row + i - tile_crop (hdr d) ->
  loop_scanlines d bytesprepx start_row rowcount i (tile_row_px :: rest) c
  = Raise IndexError.
Proof.
  intros Hcrop Hcount Hpast. cbn [loop_scanlines].
  destruct (Z.ltb_spec i (tile_crop (hdr d))); [lia|].
  destruct (Z.geb_spec (i - tile_crop (hdr d)) rowcount); [lia|].
  now rewrite (py_getitem_past_end _ _ Hpast).
Qed.

(** The third tile row of the 4x8 image declared with three rows of 4x4
    tiles and a crop of 1: five rows are allocated, the scanline [i = 2] of
    the tile at [start_row = 4] targets row 5, and the whole run stops with
    an [IndexError]. *)
Lemma row_past_the_canvas_is_fatal_witness :
  loop_scanlines
    {| hdr := {| width := 4; height := 8; tile_width := 4; tile_height := 4;
                 tile_x_count := 1; tile_y_count := 3; bmp_type := 0x08;
                 bmp_depth := 0x14; tile_crop := 1 |};
       tile_size := 16; bitmap_bpp := Some 24; palette_count := None;
       pal := empty_palette |}
    3 4 2 2 [repeat x00 12; repeat x00 12]
    {| rows := repeat [] 5; log := [] |}
  = Raise IndexError
  /\ mzp_init zero_tiles sample_three_rows 0%nat = Raise IndexError.
Proof.
  split.
  - apply row_past_the_canvas_is_fatal; cbn; lia.
  - vm_compute. reflexivity.
Defined.

(** ** HEP tiles *)

Lemma py_slice_inside {A} (l : list A) (lo hi : Z) :
  0 <= lo <= hi -> hi <= len l ->
  py_slice l lo hi = firstn (Z.to_nat (hi - lo)) (skipn (Z.to_nat lo) l).
Proof.
  unfold py_slice, clamp_index, len. intros Hlo Hhi.
  destruct (Z.ltb_spec lo 0), (Z.ltb_spec hi 0); try lia.
  now rewrite !Z.min_l by lia.
Qed.

Lemma hep_image_data_layout (dec_buf : bytes) (n : nat) :
  length dec_buf = (32 + n + 1024)%nat ->
  hep_image_data dec_buf = firstn n (skipn 32 dec_buf).
Proof.
  intros Hlen. unfold hep_image_data.
  rewrite py_slice_inside by (unfold len; lia).
  change (Z.to_nat 32) with 32%nat. f_equal. lia.
Qed.

Lemma hep_image_palette_layout (dec_buf : bytes) (n : nat) :
  length dec_buf = (32 + n + 1024)%nat ->
  hep_image_palette dec_buf = skipn (32 + n) dec_buf.
Proof.
  intros Hlen. unfold hep_image_palette, py_slice_from, py_slice, clamp_index.
  change (-1024 <? 0) with true. cbv iota.
  destruct (Z.ltb_spec (Z.of_nat (length dec_buf)) 0); [lia|].
  rewrite Z.min_id, Z.max_r by lia.
  replace (Z.to_nat (-1024 + Z.of_nat (length dec_buf))) with (32 + n)%nat
    by lia.
  apply firstn_all2. rewrite length_skipn. lia.
Qed.

(** A pixel of index [i] is the first three bytes of the quad [i], in the
    order in which they are stored. *)
Lemma hep_pixel_quad (image_palette : bytes) (i : byte) :
  length image_palette = 1024%nat ->
  hep_pixel image_palette i
  = Ok (firstn 3 (skipn (4 * Z.to_nat (byte_to_Z i)) image_palette))
  /\ length (firstn 3 (skipn (4 * Z.to_nat (byte_to_Z i)) image_palette))
     = 3%nat.
Proof.
  intros Hlen. pose proof (byte_to_Z_range i) as Hi. unfold hep_pixel.
  rewrite py_slice_inside by (unfold len; lia).
  replace (Z.to_nat (byte_to_Z i * 4 + 4 - byte_to_Z i * 4)) with 4%nat by lia.
  replace (Z.to_nat (byte_to_Z i * 4)) with (4 * Z.to_nat (byte_to_Z i))%nat
    by lia.
  assert (4 <= length (skipn (4 * Z.to_nat (byte_to_Z i)) image_palette))%nat
    as Hq by (rewrite length_skipn; lia).
  destruct (skipn _ image_palette) as [|r [|g [|b [|a rest]]]];
    cbn [length] in Hq; try lia.
  cbn [firstn]. rewrite !pack_B_byte. cbn [rbind length]. now split.
Qed.

Lemma for_each_append {A B} (f : A -> result (list B)) (g : A -> list B)
    (l : list A) :
  (forall a, In a l -> f a = Ok (g a)) ->
  forall acc,
    for_each l (fun a acc => (px <~ f a ;; Ok (acc ++ px))%res) acc
    = Ok (acc ++ flat_map g l).
Proof.
  induction l as [|a l IH]; intros Hf acc; cbn [for_each flat_map].
  - now rewrite app_nil_r.
  - rewrite (Hf a) by now left. cbn [rbind].
    rewrite IH by (intros; apply Hf; now right).
    now rewrite app_assoc.
Qed.

Lemma flat_map_constant_length {A B} (g : A -> list B) (w : nat) (l : list A) :
  (forall a, length (g a) = w) -> length (flat_map g l) = (w * length l)%nat.
Proof.
  intros Hg. induction l as [|a l IH]; cbn [flat_map length]; [lia|].
  rewrite length_app, Hg, IH. lia.
Qed.

(** C9, as the specification states it, fails: with the quad of index 0
    stored as 1, 2, 3, 4, that is B = 1, G = 2, R = 3 for a BGRA quad, the
    pixel emitted in R, G, B order would be 3, 2, 1; the decoder emits
    1, 2, 3. *)
Lemma hep_bgra_refuted :
  spec_decode_hep sample_hep_buf = Ok [x03; x02; x01]
  /\ decode_hep sample_hep_buf = Ok [x01; x02; x03]
  /\ decode_hep sample_hep_buf <> spec_decode_hep sample_hep_buf.
Proof.
  split; [vm_compute; reflexivity|].
  split; [vm_compute; reflexivity|].
  vm_compute. discriminate.
Qed.

(** C9, amended.  For a HEP tile (type 0x0C, 24 bits per pixel) whose
    decompressed buffer is 32 header bytes, [n] index bytes and a 1024-byte
    palette of 256 four-byte quads, the decoder ignores the first 32 bytes,
    looks up each index byte in the trailing palette and emits exactly three
    bytes per pixel: the first three bytes of the quad in the order in which
    they are stored (the code names them r, g, b), dropping the fourth. *)
Theorem hep_tile_emits_quad_prefix (d : desc) (dec_buf : bytes) (n : nat) :
  bmp_type (hdr d) = 0x0C ->
  bitmap_bpp d = Some 24 ->
  length dec_buf = (32 + n + 1024)%nat ->
  decode_tile d dec_buf
  = Ok (flat_map
          (fun i => firstn 3 (skipn (4 * Z.to_nat (byte_to_Z i))
                                (skipn (32 + n) dec_buf)))
          (firstn n (skipn 32 dec_buf)))
  /\ (exists out, decode_tile d dec_buf = Ok out /\ length out = (3 * n)%nat).
Proof.
  intros Ht Hb Hlen.
  assert (length (skipn (32 + n) dec_buf) = 1024%nat) as Hpal
    by (rewrite length_skipn; lia).
  assert (decode_tile d dec_buf
          = Ok (flat_map
                  (fun i => firstn 3 (skipn (4 * Z.to_nat (byte_to_Z i))
                                        (skipn (32 + n) dec_buf)))
                  (firstn n (skipn 32 dec_buf)))) as E.
  { unfold decode_tile. rewrite Hb, Ht. cbn.
    unfold decode_hep.
    rewrite (hep_image_data_layout _ n Hlen),
      (hep_image_palette_layout _ n Hlen).
    rewrite (for_each_append _
               (fun i => firstn 3 (skipn (4 * Z.to_nat (byte_to_Z i))
                                     (skipn (32 + n) dec_buf)))).
    - reflexivity.
    - intros i _. now apply hep_pixel_quad. }
  split; [exact E|].
  eexists. split; [exact E|].
  rewrite (flat_map_constant_length _ 3).
  - rewrite length_firstn, length_skipn. lia.
  - intros i. now apply hep_pixel_quad.
Qed.

(** The sample buffer: one pixel of index 0, quad 0 stored as 1, 2, 3, 4. *)
Lemma hep_tile_emits_quad_prefix_witness :
  decode_tile
    {| hdr := {| width := 1; height := 1; tile_width := 1; tile_height := 1;
                 tile_x_count := 1; tile_y_count := 1; bmp_type := 0x0C;
                 bmp_depth := 0x11; tile_crop := 0 |};
       tile_size := 1; bitmap_bpp := Some 24; palette_count := None;
       pal := empty_palette |}
    sample_hep_buf
  = Ok [x01; x02; x03].
Proof.
  exact (proj1 (hep_tile_emits_quad_prefix
                  {| hdr := {| width := 1; height := 1; tile_width := 1;
                               tile_height := 1; tile_x_count := 1;
                               tile_y_count := 1; bmp_type := 0x0C;
                               bmp_depth := 0x11; tile_crop := 0 |};
                     tile_size := 1; bitmap_bpp := Some 24;
                     palette_count := None; pal := empty_palette |}
                  sample_hep_buf 1%nat eq_refl eq_refl eq_refl)).
Defined.

(** ** Palette layouts *)






(** The two shapes of [extract_desc] on an indexed bitmap. *)
Lemma extract_desc_linear (data : bytes) (real_offset : nat) (h : header) :
  unpack_header (firstn 16 (skipn real_offset data)) = Ok h ->
  bmp_type h = 0x01 ->
  bmp_depth h = 0x00 \/ bmp_depth h = 0x10 ->
  extract_desc data real_offset 0%nat
  = match read_palette_linear data 0x10 empty_palette (real_offset + 16)%nat
    with
    | Ok (p, pos) =>
        Ok ({| hdr := h; tile_size := tile_width h * tile_height h;
               bitmap_bpp := Some 4; palette_count := Some 0x10;
               pal := pad_palette 0x10 p |}, pos)
    | Raise e => Raise e
    end.
Proof.
  intros H Ht Hd.
  unfold extract_desc, mbind, seek, read, lift.
  change (Pos.to_nat 16) with 16%nat. rewrite H.
  rewrite (unpack_header_length _ _ H).
  unfold is_indexed_bitmap, mem. rewrite Ht.
  destruct Hd as [-> | ->]; cbn -[read_palette_linear pad_palette];
    destruct (read_palette_linear data 16 empty_palette (real_offset + 16)%nat)
      as [[p pos]|]; reflexivity.
Qed.

Lemma extract_desc_blocks (data : bytes) (real_offset : nat) (h : header) :
  unpack_header (firstn 16 (skipn real_offset data)) = Ok h ->
  bmp_type h = 0x01 ->
  bmp_depth h = 0x01 \/ bmp_depth h = 0x11 \/ bmp_depth h = 0x91 ->
  extract_desc data real_offset 0%nat
  = match read_palette_blocks data 0x100 empty_palette (real_offset + 16)%nat
    with
    | Ok (p, pos) =>
        Ok ({| hdr := h; tile_size := tile_width h * tile_height h;
               bitmap_bpp := Some 8; palette_count := Some 0x100;
               pal := p |}, pos)
    | Raise e => Raise e
    end.
Proof.
  intros H Ht Hd.
  unfold extract_desc, mbind, seek, read, lift.
  change (Pos.to_nat 16) with 16%nat. rewrite H.
  rewrite (unpack_header_length _ _ H).
  unfold is_indexed_bitmap, mem. rewrite Ht.
  destruct Hd as [-> | [-> | ->]]; cbn -[read_palette_blocks];
    destruct (read_palette_blocks data 256 empty_palette (real_offset + 16)%nat)
      as [[p pos]|]; reflexivity.
Qed.

(** C4, as the specification states it, fails.  For type 0x01 and depth
    0x01 the palette built by [extract_desc] is not the sequential read of
    the 256 stored entries: on the sample container its ninth entry is the
    entry stored at physical index 16. *)
Lemma depth01_linear_refuted :
  exists d pos p pos',
    extract_desc (sample_indexed 0x01) 0%nat 0%nat = Ok (d, pos)
    /\ bitmap_bpp d = Some 8
    /\ read_palette_linear (sample_indexed 0x01) 0x100 empty_palette 16%nat
       = Ok (p, pos')
    /\ firstn 3 (skipn (3 * 8) (palettepng p)) = [x08; x08; x08]
    /\ firstn 3 (skipn (3 * 8) (palettepng (pal d))) = [x10; x10; x10]
    /\ pal d <> p.
Proof.
  destruct (extract_desc (sample_indexed 0x01) 0%nat 0%nat)
    as [[d pos]|] eqn:Ed; [|vm_compute in Ed; discriminate].
  destruct (read_palette_linear (sample_indexed 0x01) 0x100 empty_palette
              16%nat) as [[p pos']|] eqn:Ep; [|vm_compute in Ep; discriminate].
  exists d, pos, p, pos'.
  vm_compute in Ed. injection Ed as <- <-.
  vm_compute in Ep. injection Ep as <- <-.
  repeat split; try reflexivity.
  intros H. apply (f_equal (fun q => nth_error (palettepng q) 24)) in H.
  vm_compute in H. discriminate.
Qed.

(** C4, amended.  For bitmapType 0x01 with bitmapDepth 0x01, header
    derivation yields 8 bits per pixel and 256 palette entries, and the
    palette is read with the block layout of depths 0x11 and 0x91 (blocks of
    0x80 bytes, sub-blocks de-swizzled), not sequentially; no padding entry
    is added. *)
Theorem depth01_is_block_swizzled
    (data : bytes) (real_offset : nat) (h : header) :
  unpack_header (firstn 16 (skipn real_offset data)) = Ok h ->
  bmp_type h = 0x01 ->
  bmp_depth h = 0x01 ->
  extract_desc data real_offset 0%nat
  = match read_palette_blocks data 0x100 empty_palette (real_offset + 16)%nat
    with
    | Ok (p, pos) =>
        Ok ({| hdr := h; tile_size := tile_width h * tile_height h;
               bitmap_bpp := Some 8; palette_count := Some 0x100;
               pal := p |}, pos)
    | Raise e => Raise e
    end.
Proof.
  intros H Ht Hd. apply extract_desc_blocks; auto.
Qed.

(** The sample container of depth 0x01. *)
Lemma depth01_is_block_swizzled_witness :
  extract_desc (sample_indexed 0x01) 0%nat 0%nat
  = match read_palette_blocks (sample_indexed 0x01) 0x100 empty_palette 16%nat
    with
    | Ok (p, pos) =>
        Ok ({| hdr := {| width := 4; height := 4; tile_width := 4;
                         tile_height := 4; tile_x_count := 1;
                         tile_y_count := 1; bmp_type := 0x01;
                         bmp_depth := 0x01; tile_crop := 0 |};
               tile_size := 16; bitmap_bpp := Some 8;
               palette_count := Some 0x100; pal := p |}, pos)
    | Raise e => Raise e
    end.
Proof.
  exact (depth01_is_block_swizzled (sample_indexed 0x01) 0%nat
           {| width := 4; height := 4; tile_width := 4; tile_height := 4;
              tile_x_count := 1; tile_y_count := 1; bmp_type := 0x01;
              bmp_depth := 0x01; tile_crop := 0 |}
           eq_refl eq_refl eq_refl).
Defined.

(** ** The size of the palette *)

Lemma range_length (n : Z) : length (range n) = Z.to_nat n.
Proof.
  unfold range. now rewrite length_map, length_seq.
Qed.

Lemma in_range (a n : Z) : In a (range n) -> 0 <= a < n.
Proof.
  unfold range. rewrite in_map_iff. intros (k & <- & Hk).
  apply in_seq in Hk. lia.
Qed.

Section PaletteSizes.

Variable data : bytes.

(** [p'] is [p] with [c] more entries. *)
Local Abbreviation grows c p p' :=
  (length (paletteblob p') = (length (paletteblob p) + 4 * c)%nat
   /\ length (palettepng p') = (length (palettepng p) + 3 * c)%nat
   /\ length (transpng p') = (length (transpng p) + c)%nat).

Lemma read_palette_entry_ok (p : palette) (pos : nat) :
  (pos + 4 <= length data)%nat ->
  exists p',
    read_palette_entry data p pos = Ok (p', (pos + 4)%nat) /\ grows 1%nat p p'.
Proof.
  intros Hpos.
  assert (length (firstn 4 (skipn pos data)) = 4%nat) as H4
    by (rewrite length_firstn, length_skipn; lia).
  destruct (firstn 4 (skipn pos data)) as [|r [|g [|b [|raw [|]]]]] eqn:E;
    try discriminate.
  destruct (pack_B_ok (expand_alpha (byte_to_Z raw))
              (expand_alpha_range _ (byte_to_Z_range raw))) as (a & Ea & _).
  eexists. split; [apply (read_palette_entry_eq data pos p r g b raw a E Ea)|].
  cbn [paletteblob palettepng transpng]. rewrite !length_app. cbn. lia.
Qed.

Lemma read_palette_entries_ok {A} (l : list A) :
  forall (p : palette) (pos : nat),
    (pos + 4 * length l <= length data)%nat ->
    exists p',
      mfor l (fun _ => read_palette_entry data) p pos
      = Ok (p', (pos + 4 * length l)%nat)
      /\ grows (length l) p p'.
Proof.
  induction l as [|a l IH]; intros p pos Hpos; cbn [mfor length] in *.
  - exists p. unfold mret. split; [do 2 f_equal; lia | lia].
  - destruct (read_palette_entry_ok p pos) as (p1 & E1 & H1); [lia|].
    destruct (IH p1 (pos + 4)%nat) as (p2 & E2 & H2); [lia|].
    exists p2. unfold mbind. rewrite E1, E2.
    split; [do 2 f_equal; lia | lia].
Qed.

Lemma mfor_grows {A} (body : A -> palette -> M palette) (c : nat) (l : list A) :
  (forall a, In a l -> forall p pos,
     exists p' pos', body a p pos = Ok (p', pos') /\ grows c p p') ->
  forall p pos,
    exists p' pos',
      mfor l body p pos = Ok (p', pos') /\ grows (c * length l)%nat p p'.
Proof.
  induction l as [|a l IH]; intros Hbody p pos; cbn [mfor length].
  - exists p, pos. unfold mret. split; [reflexivity | lia].
  - destruct (Hbody a (or_introl eq_refl) p pos) as (p1 & pos1 & E1 & H1).
    destruct (IH (fun b Hb => Hbody b (or_intror Hb)) p1 pos1)
      as (p2 & pos2 & E2 & H2).
    exists p2, pos2. unfold mbind. rewrite E1, E2. split; [reflexivity | lia].
Qed.

Lemma read_palette_linear_ok (count : Z) (p : palette) (pos : nat) :
  (pos + 4 * Z.to_nat count <= length data)%nat ->
  exists p' pos',
    read_palette_linear data count p pos = Ok (p', pos')
    /\ grows (Z.to_nat count) p p'.
Proof.
  intros Hpos. unfold read_palette_linear.
  destruct (read_palette_entries_ok (range count) p pos) as (p' & E & H);
    rewrite range_length in *; [lia|].
  now exists p', (pos + 4 * Z.to_nat count)%nat.
Qed.

Lemma read_palette_blocks_ok (p : palette) (pos : nat) :
  (pos + 1024 <= length data)%nat ->
  exists p' pos',
    read_palette_blocks data 0x100 p pos = Ok (p', pos')
    /\ grows 256%nat p p'.
Proof.
  intros Hpos. unfold read_palette_blocks. unfold mbind at 1, tell.
  change (0x100 * 4 / 0x80) with 8.
  change 256%nat with (32 * length (range 8))%nat.
  apply mfor_grows. intros h Hh. apply in_range in Hh.
  change 32%nat with (16 * length (range 2))%nat.
  apply mfor_grows. intros i Hi. apply in_range in Hi.
  change 16%nat with (8 * length (range 2))%nat.
  apply mfor_grows. intros j Hj q pos1. apply in_range in Hj.
  unfold mbind, seek.
  destruct (read_palette_entries_ok (range 8) q
              (Z.to_nat (sub_block_offset h i j + Z.of_nat pos)))
    as (q' & E & H).
  { change (length (range 8)) with 8%nat. unfold sub_block_offset. lia. }
  exists q'. eexists. split; [exact E|]. exact H.
Qed.

(** Conversely, an entry that was read took four bytes from the file. *)
Lemma read_palette_entry_built (p : palette) (pos : nat) (p' : palette)
    (pos' : nat) :
  read_palette_entry data p pos = Ok (p', pos') -> grows 1%nat p p'.
Proof.
  unfold read_palette_entry, mbind, read, lift, mret.
  set (r := firstn 1 (skipn pos data)).
  set (g := firstn 1 (skipn (pos + length r) data)).
  set (b := firstn 1 (skipn (pos + length r + length g) data)).
  set (raw := firstn 1 (skipn (pos + length r + length g + length b) data)).
  assert (length r = Nat.min 1 (length data - pos)) as Hr
    by (unfold r; now rewrite length_firstn, length_skipn).
  assert (length g = Nat.min 1 (length data - (pos + length r))) as Hg
    by (unfold g; now rewrite length_firstn, length_skipn).
  assert (length b = Nat.min 1 (length data - (pos + length r + length g)))
    as Hb by (unfold b; now rewrite length_firstn, length_skipn).
  assert (length raw
          = Nat.min 1 (length data - (pos + length r + length g + length b)))
    as Hraw by (unfold raw; now rewrite length_firstn, length_skipn).
  destruct raw as [|a0 [|]]; cbn [unpack_B]; try discriminate.
  destruct (pack_B _) as [a|]; [|discriminate].
  intros [= <- _]. cbn [paletteblob palettepng transpng length] in *.
  rewrite !length_app. cbn [length]. lia.
Qed.

Lemma mfor_built {A} (body : A -> palette -> M palette) (c : nat) (l : list A) :
  (forall a p pos p' pos', body a p pos = Ok (p', pos') -> grows c p p') ->
  forall p pos p' pos',
    mfor l body p pos = Ok (p', pos') -> grows (c * length l)%nat p p'.
Proof.
  intros Hbody. induction l as [|a l IH]; intros p pos p' pos';
    cbn [mfor length].
  - unfold mret. intros [= <- _]. lia.
  - unfold mbind. destruct (body a p pos) as [[p1 pos1]|] eqn:E1;
      [|discriminate].
    intros E2. apply Hbody in E1. apply IH in E2. lia.
Qed.

Lemma read_palette_linear_built (count : Z) (p p' : palette) (pos pos' : nat) :
  read_palette_linear data count p pos = Ok (p', pos') ->
  grows (Z.to_nat count) p p'.
Proof.
  unfold read_palette_linear. intros E.
  apply (mfor_built _ 1%nat) in E.
  - rewrite range_length in E. lia.
  - intros _. apply read_palette_entry_built.
Qed.

Lemma read_palette_blocks_built (p p' : palette) (pos pos' : nat) :
  read_palette_blocks data 0x100 p pos = Ok (p', pos') -> grows 256%nat p p'.
Proof.
  unfold read_palette_blocks. unfold mbind at 1, tell.
  change (0x100 * 4 / 0x80) with 8.
  change 256%nat with (32 * length (range 8))%nat.
  apply mfor_built. intros h.
  change 32%nat with (16 * length (range 2))%nat.
  apply mfor_built. intros i.
  change 16%nat with (8 * length (range 2))%nat.
  apply mfor_built. intros j q pos1 q' pos1'.
  unfold mbind, seek. intros E.
  apply (mfor_built _ 1%nat) in E.
  - change (length (range 8)) with 8%nat in E. lia.
  - intros _. apply read_palette_entry_built.
Qed.

End PaletteSizes.

(** The padding loop appends the same entry to each string. *)
Lemma pad_palette_eq (l : list Z) (p : palette) :
  fold_left (fun p _ => pad_entry p) l p
  = {| paletteblob :=
         paletteblob p ++ concat (repeat [x00; x00; x00; xff] (length l));
       palettepng :=
         palettepng p ++ concat (repeat [x00; x00; x00] (length l));
       transpng := transpng p ++ concat (repeat [xff] (length l)) |}.
Proof.
  revert p. induction l as [|a l IH]; intros p; cbn [fold_left length repeat concat].
  - rewrite !app_nil_r. now destruct p.
  - rewrite IH. unfold pad_entry. cbn [paletteblob palettepng transpng].
    rewrite <- !app_assoc. reflexivity.
Qed.

Lemma concat_repeat_length {A} (q : list A) (n : nat) :
  length (concat (repeat q n)) = (length q * n)%nat.
Proof.
  induction n as [|n IH]; cbn [repeat concat length]; [lia|].
  rewrite length_app, IH. lia.
Qed.

(** The [m]-th slice of [n] copies of [q] is [q]. *)
Lemma slice_of_repeat {A} (q : list A) :
  forall m n, (m < n)%nat ->
    firstn (length q) (skipn (length q * m) (concat (repeat q n))) = q.
Proof.
  induction m as [|m IH]; intros [|n] Hmn; try lia; cbn [repeat concat].
  - rewrite Nat.mul_0_r. cbn [skipn].
    rewrite firstn_app, Nat.sub_diag, firstn_all. cbn [firstn].
    apply app_nil_r.
  - rewrite skipn_app, skipn_all2 by lia. cbn [app].
    replace (length q * S m - length q)%nat with (length q * m)%nat by lia.
    apply IH. lia.
Qed.

(** Behind [w * count] bytes of read entries, slice [k >= count] lies in the
    padding. *)
Lemma slice_in_padding {A} (q pre : list A) (count n k : nat) :
  length pre = (length q * count)%nat ->
  (count <= k < count + n)%nat ->
  firstn (length q) (skipn (length q * k) (pre ++ concat (repeat q n))) = q.
Proof.
  intros Hpre Hk.
  rewrite skipn_app, skipn_all2 by nia. cbn [app].
  replace (length q * k - length pre)%nat with (length q * (k - count))%nat
    by nia.
  apply slice_of_repeat. lia.
Qed.

Lemma range2_length (lo hi : Z) : length (range2 lo hi) = Z.to_nat (hi - lo).
Proof.
  unfold range2. now rewrite length_map, range_length.
Qed.

(** C10.  For every indexed bitmap (type 0x01) with an accepted depth,
    [extract_desc] builds a palette as soon as the palette bytes are present
    in the file, and whenever it builds one the palette has exactly 256
    entries: the RGB projection has 768 bytes, the alpha projection 256
    bytes (and the blob 1024 bytes), and every entry at an index from
    [palette_count] on is opaque black, [r = g = b = 0] and [a = 255]. *)
Theorem indexed_palette_has_256_entries
    (data : bytes) (real_offset : nat) (h : header) :
  unpack_header (firstn 16 (skipn real_offset data)) = Ok h ->
  bmp_type h = 0x01 ->
  mem (bmp_depth h) [0x01; 0x00; 0x10; 0x11; 0x91] = true ->
  ((real_offset + 16
    + (if mem (bmp_depth h) [0x00; 0x10]%Z then 64 else 1024)
    <= length data)%nat ->
   exists d pos, extract_desc data real_offset 0%nat = Ok (d, pos))
  /\ (forall d pos,
        extract_desc data real_offset 0%nat = Ok (d, pos) ->
        hdr d = h
        /\ exists count,
            palette_count d = Some count
            /\ length (paletteblob (pal d)) = 1024%nat
            /\ length (palettepng (pal d)) = 768%nat
            /\ length (transpng (pal d)) = 256%nat
            /\ forall k : nat,
                 count <= Z.of_nat k < 256 ->
                 firstn 4 (skipn (4 * k) (paletteblob (pal d)))
                 = [x00; x00; x00; xff]
                 /\ firstn 3 (skipn (3 * k) (palettepng (pal d)))
                    = [x00; x00; x00]
                 /\ firstn 1 (skipn k (transpng (pal d))) = [xff]).
Proof.
  intros H Ht Hd.
  assert ((bmp_depth h = 0x00 \/ bmp_depth h = 0x10)
          \/ (bmp_depth h = 0x01 \/ bmp_depth h = 0x11 \/ bmp_depth h = 0x91))
    as [Hlin | Hblk].
  { unfold mem in Hd. cbn [existsb] in Hd.
    rewrite !orb_true_iff, !Z.eqb_eq in Hd. intuition congruence. }
  - rewrite (extract_desc_linear data real_offset h H Ht Hlin). split.
    + intros Hlen.
      destruct (read_palette_linear_ok data 0x10 empty_palette
                  (real_offset + 16)%nat) as (p & pos & E & _).
      { destruct Hlin as [Hz | Hz]; rewrite Hz in Hlen; cbn in Hlen |- *; lia. }
      rewrite E. eauto.
    + intros d pos.
      destruct (read_palette_linear data 0x10 empty_palette _)
        as [[p pos1]|] eqn:E; [|discriminate].
      intros [= <- _].
      apply read_palette_linear_built in E. destruct E as (Hb & Hp & Ha).
      cbn in Hb, Hp, Ha.
      split; [reflexivity|]. exists 0x10.
      cbn [hdr palette_count pal]. unfold pad_palette.
      rewrite pad_palette_eq, range2_length.
      change (Z.to_nat (0x100 - 0x10)) with 240%nat.
      cbn [paletteblob palettepng transpng].
      rewrite !length_app, !concat_repeat_length, Hb, Hp, Ha.
      do 4 (split; [reflexivity|]). intros k Hk. split; [|split].
      * apply (slice_in_padding [x00; x00; x00; xff] (paletteblob p) 16 240 k);
          [exact Hb | lia].
      * apply (slice_in_padding [x00; x00; x00] (palettepng p) 16 240 k);
          [exact Hp | lia].
      * replace k with (1 * k)%nat at 1 by lia.
        apply (slice_in_padding [xff] (transpng p) 16 240 k); [exact Ha | lia].
  - rewrite (extract_desc_blocks data real_offset h H Ht Hblk). split.
    + intros Hlen.
      destruct (read_palette_blocks_ok data empty_palette
                  (real_offset + 16)%nat) as (p & pos & E & _).
      { destruct Hblk as [Hz | [Hz | Hz]]; rewrite Hz in Hlen; cbn in Hlen;
          lia. }
      rewrite E. eauto.
    + intros d pos.
      destruct (read_palette_blocks data 0x100 empty_palette _)
        as [[p pos1]|] eqn:E; [|discriminate].
      intros [= <- _].
      apply read_palette_blocks_built in E. destruct E as (Hb & Hp & Ha).
      cbn in Hb, Hp, Ha.
      split; [reflexivity|]. exists 0x100. cbn [hdr palette_count pal].
      do 4 (split; [assumption || reflexivity|]). intros k Hk. lia.
Qed.

(** The sample container of depth 0x10: sixteen entries are read and 240
    are padded. *)
Lemma indexed_palette_has_256_entries_witness :
  exists d pos,
    extract_desc (sample_indexed 0x10) 0%nat 0%nat = Ok (d, pos)
    /\ palette_count d = Some 0x10
    /\ length (palettepng (pal d)) = 768%nat
    /\ length (transpng (pal d)) = 256%nat
    /\ firstn 3 (skipn (3 * 16) (palettepng (pal d))) = [x00; x00; x00]
    /\ firstn 1 (skipn 16 (transpng (pal d))) = [xff].
Proof.
  destruct (indexed_palette_has_256_entries (sample_indexed 0x10) 0%nat
              {| width := 4; height := 4; tile_width := 4; tile_height := 4;
                 tile_x_count := 1; tile_y_count := 1; bmp_type := 0x01;
                 bmp_depth := 0x10; tile_crop := 0 |}
              eq_refl eq_refl eq_refl) as (Hbuilt & Hsize).
  destruct Hbuilt as (d & pos & E); [vm_compute; lia|].
  destruct (Hsize d pos E) as (_ & count & Hc & _ & Hp & Ha & Hk).
  assert (count = 0x10) as ->.
  { pose proof (extract_desc_linear (sample_indexed 0x10) 0%nat
                  {| width := 4; height := 4; tile_width := 4;
                     tile_height := 4; tile_x_count := 1; tile_y_count := 1;
                     bmp_type := 0x01; bmp_depth := 0x10; tile_crop := 0 |}
                  eq_refl eq_refl (or_intror eq_refl)) as E'.
    rewrite E in E'.
    destruct (read_palette_linear _ _ _ _) as [[p pos1]|]; [|discriminate].
    injection E' as -> _. cbn in Hc. now injection Hc as <-. }
  destruct (Hk 16%nat ltac:(lia)) as (_ & H3 & H1).
  exists d, pos. repeat split; assumption.
Defined.

(** * Further properties *)

(** ** [chunks] *)

Lemma chunks_fuel_concat {A} (n : nat) :
  (0 < n)%nat ->
  forall fuel (l : list A),
    (length l <= fuel)%nat -> concat (chunks_fuel fuel l n) = l.
Proof.
  intros Hn. induction fuel as [|fuel IH]; intros l Hl.
  - destruct l; [reflexivity | cbn in Hl; lia].
  - destruct l as [|a l]; [reflexivity|].
    cbn [chunks_fuel concat]. rewrite IH.
    + apply firstn_skipn.
    + rewrite length_skipn. cbn [length] in *. lia.
Qed.

Lemma chunks_fuel_sizes {A} (n : nat) :
  (0 < n)%nat ->
  forall fuel (l : list A),
    Forall (fun c => (0 < length c <= n)%nat) (chunks_fuel fuel l n).
Proof.
  intros Hn. induction fuel as [|fuel IH]; intros l.
  - destruct l; constructor.
  - destruct l as [|a l]; [constructor|].
    cbn [chunks_fuel]. constructor; [|apply IH].
    rewrite length_firstn. cbn [length]. lia.
Qed.

Lemma chunks_fuel_exact {A} (n : nat) :
  (0 < n)%nat ->
  forall k fuel (l : list A),
    length l = (k * n)%nat -> (length l <= fuel)%nat ->
    length (chunks_fuel fuel l n) = k
    /\ Forall (fun c => length c = n) (chunks_fuel fuel l n).
Proof.
  intros Hn. induction k as [|k IH]; intros fuel l Hl Hf.
  - destruct l; [|discriminate]. destruct fuel; cbn; auto.
  - destruct l as [|a l]; [cbn in Hl; lia|].
    destruct fuel as [|fuel]; [cbn in Hf; lia|].
    cbn [chunks_fuel].
    destruct (IH fuel (skipn n (a :: l))) as (Hk & Hall).
    + rewrite length_skipn, Hl. lia.
    + rewrite length_skipn. cbn [length] in *. lia.
    + split; [cbn [length]; now rewrite Hk|].
      constructor; [|exact Hall].
      rewrite length_firstn, Hl. lia.
Qed.

Lemma chunks_concat_sizes {A} (l : list A) (n : Z) :
  0 < n ->
  exists cs,
    chunks l n = Ok cs
    /\ concat cs = l
    /\ Forall (fun c => 0 < len c <= n) cs.
Proof.
  intros Hn. unfold chunks.
  destruct (Z.eqb_spec n 0); [lia|]. destruct (Z.ltb_spec n 0); [lia|].
  eexists. split; [reflexivity|]. split.
  - apply chunks_fuel_concat; lia.
  - eapply Forall_impl; [|apply (chunks_fuel_sizes (Z.to_nat n)); lia].
    intros c Hc. unfold len. cbn beta in Hc. lia.
Qed.

(** X1.  For a positive chunk size, [chunks] loses nothing and invents
    nothing: the chunks, put end to end, are the input, none of them is
    empty and none is longer than the chunk size. *)
Theorem chunks_partition {A} (l : list A) (n : Z) :
  0 < n ->
  exists cs,
    chunks l n = Ok cs
    /\ concat cs = l
    /\ Forall (fun c => 0 < len c <= n) cs.
Proof.
  exact (chunks_concat_sizes l n).
Qed.

Lemma chunks_partition_witness :
  exists cs,
    chunks [x01; x02; x03; x04; x05] 2 = Ok cs
    /\ concat cs = [x01; x02; x03; x04; x05]
    /\ Forall (fun c => 0 < len c <= 2) cs.
Proof.
  apply (chunks_partition [x01; x02; x03; x04; x05] 2). lia.
Defined.

Lemma chunks_tiling {A} (l : list A) (n k : Z) :
  0 < n -> 0 <= k -> len l = k * n ->
  exists cs,
    chunks l n = Ok cs
    /\ len cs = k
    /\ Forall (fun c => len c = n) cs.
Proof.
  intros Hn Hk Hl. unfold chunks.
  destruct (Z.eqb_spec n 0); [lia|]. destruct (Z.ltb_spec n 0); [lia|].
  destruct (chunks_fuel_exact (A := A) (Z.to_nat n) ltac:(lia) (Z.to_nat k)
              (length l) l) as (Hc & Hall).
  - unfold len in Hl. nia.
  - lia.
  - eexists. split; [reflexivity|]. split.
    + unfold len. rewrite Hc. lia.
    + eapply Forall_impl; [|exact Hall].
      intros c Hc'. unfold len. cbn beta in Hc'. lia.
Qed.

(** X2.  A buffer of exactly [k] scanlines of [n] bytes is cut into [k]
    chunks of [n] bytes each: a decoded tile of [tile_height] full scanlines
    gives [tile_height] scanlines to the compositor. *)
Theorem chunks_exact {A} (l : list A) (n k : Z) :
  0 < n -> 0 <= k -> len l = k * n ->
  exists cs,
    chunks l n = Ok cs
    /\ len cs = k
    /\ Forall (fun c => len c = n) cs.
Proof.
  exact (chunks_tiling l n k).
Qed.

Lemma chunks_exact_witness :
  exists cs,
    chunks [x01; x02; x03; x04; x05; x06] 2 = Ok cs
    /\ len cs = 3
    /\ Forall (fun c => len c = 2) cs.
Proof.
  apply (chunks_exact [x01; x02; x03; x04; x05; x06] 2 3); [lia | lia|].
  reflexivity.
Defined.

(** ** Tile decoding *)

Lemma byte_of_Z_ok (v : Z) :
  0 <= v <= 255 -> pack_B v = Ok (byte_of_Z v) /\ byte_to_Z (byte_of_Z v) = v.
Proof.
  intros Hv. destruct (pack_B_ok v Hv) as (b & E & Hb).
  assert (byte_of_Z v = b) as ->; [|now split].
  unfold byte_of_Z. rewrite Z.mod_small by lia.
  unfold pack_B in E.
  destruct ((0 <=? v) && (v <=? 255)); [|discriminate].
  destruct (Byte.of_N (Z.to_N v)); congruence.
Qed.

Lemma for_each_collect {A B} (body : A -> list B -> result (list B))
    (g : A -> list B) (l : list A) :
  (forall a acc, In a l -> body a acc = Ok (acc ++ g a)) ->
  forall acc, for_each l body acc = Ok (acc ++ flat_map g l).
Proof.
  induction l as [|a l IH]; intros Hbody acc; cbn [for_each flat_map].
  - now rewrite app_nil_r.
  - rewrite (Hbody a acc) by now left. cbn [rbind].
    rewrite IH by (intros; apply Hbody; now right).
    now rewrite app_assoc.
Qed.

Lemma byte_low_mod (b : byte) : byte_low (byte_to_Z b) = byte_to_Z b mod 16.
Proof.
  unfold byte_low. change 0x0F with (Z.ones 4).
  now rewrite Z.land_ones by lia.
Qed.

Lemma byte_high_div (b : byte) : byte_high (byte_to_Z b) = byte_to_Z b / 16.
Proof.
  unfold byte_high. now rewrite Z.shiftr_div_pow2 by lia.
Qed.

(** X3.  The 4bpp expansion never fails and turns every octet into two
    index bytes, the low nibble first and the high nibble second; the output
    is twice as long as the input and every index is below 16. *)
Theorem expand_nibbles_low_first (dec_buf : bytes) :
  exists out,
    expand_nibbles dec_buf = Ok out
    /\ map byte_to_Z out
       = flat_map (fun o => [byte_to_Z o mod 16; byte_to_Z o / 16]) dec_buf
    /\ length out = (2 * length dec_buf)%nat
    /\ Forall (fun px => 0 <= byte_to_Z px < 16) out.
Proof.
  set (g := fun o => [byte_of_Z (byte_to_Z o mod 16);
                      byte_of_Z (byte_to_Z o / 16)]).
  assert (forall o, 0 <= byte_to_Z o mod 16 < 16 /\ 0 <= byte_to_Z o / 16 < 16)
    as Hnib.
  { intros o. pose proof (byte_to_Z_range o). split.
    - apply Z.mod_pos_bound. lia.
    - split; [apply Z.div_pos; lia | apply Z.div_lt_upper_bound; lia]. }
  exists (flat_map g dec_buf). split; [|split; [|split]].
  - unfold expand_nibbles.
    apply (for_each_collect _ g dec_buf). intros o acc _.
    rewrite byte_low_mod, byte_high_div.
    destruct (Hnib o) as (Hlo & Hhi).
    destruct (byte_of_Z_ok (byte_to_Z o mod 16)) as (-> & _); [lia|].
    destruct (byte_of_Z_ok (byte_to_Z o / 16)) as (-> & _); [lia|].
    reflexivity.
  - induction dec_buf as [|o l IH]; [reflexivity|].
    cbn [flat_map map app g]. rewrite IH.
    destruct (Hnib o) as (Hlo & Hhi).
    destruct (byte_of_Z_ok (byte_to_Z o mod 16)) as (_ & ->); [lia|].
    destruct (byte_of_Z_ok (byte_to_Z o / 16)) as (_ & ->); [lia|].
    reflexivity.
  - rewrite (flat_map_constant_length g 2); [lia | reflexivity].
  - apply Forall_flat_map. apply Forall_forall. intros o _.
    destruct (Hnib o) as (Hlo & Hhi).
    destruct (byte_of_Z_ok (byte_to_Z o mod 16)) as (_ & E1); [lia|].
    destruct (byte_of_Z_ok (byte_to_Z o / 16)) as (_ & E2); [lia|].
    unfold g. repeat constructor; lia.
Qed.

Lemma py_getitem_nth {A} (l : list A) (i : Z) (dflt : A) :
  0 <= i < len l -> py_getitem l i = Ok (nth (Z.to_nat i) l dflt).
Proof.
  unfold py_getitem, py_position, len. intros Hi.
  destruct (Z.leb_spec 0 i), (Z.ltb_spec i (Z.of_nat (length l))); try lia.
  cbn [andb rbind].
  destruct (nth_error l (Z.to_nat i)) as [a|] eqn:E.
  - now rewrite (nth_error_nth _ _ _ E).
  - apply nth_error_None in E. lia.
Qed.

Lemma py_getitem_in_range {A} (l : list A) (i : Z) (a : A) :
  py_getitem l i = Ok a -> - len l <= i < len l.
Proof.
  unfold py_getitem, py_position, len.
  destruct (Z.leb_spec 0 i), (Z.ltb_spec i (Z.of_nat (length l))); cbn;
    try (intros _; lia);
    destruct (Z.leb_spec (- Z.of_nat (length l)) i), (Z.ltb_spec i 0); cbn;
    try discriminate; intros _; lia.
Qed.

Lemma byte_at_nth (dec_buf : bytes) (i : Z) :
  0 <= i < len dec_buf ->
  byte_at dec_buf i = Ok (byte_to_Z (nth (Z.to_nat i) dec_buf x00)).
Proof.
  intros Hi. unfold byte_at. now rewrite (py_getitem_nth _ _ x00 Hi).
Qed.

Lemma pack_rgb_bytes (P Q c : byte) :
  pack_rgb (byte_to_Z P) (byte_to_Z Q) (byte_to_Z c)
  = Ok [byte_of_Z (base_r (byte_to_Z Q) + r_offset (byte_to_Z c));
        byte_of_Z (base_g (byte_to_Z P) (byte_to_Z Q) + g_offset (byte_to_Z c));
        byte_of_Z (base_b (byte_to_Z P) + b_offset (byte_to_Z c))].
Proof.
  pose proof (base_r_bound Q). pose proof (base_g_bound P Q).
  pose proof (base_b_bound P).
  destruct (offsets_bound c) as (? & ? & ?).
  unfold pack_rgb.
  destruct (byte_of_Z_ok (base_r (byte_to_Z Q) + r_offset (byte_to_Z c)))
    as (-> & _); [lia|].
  destruct (byte_of_Z_ok (base_g (byte_to_Z P) (byte_to_Z Q)
                          + g_offset (byte_to_Z c))) as (-> & _); [lia|].
  destruct (byte_of_Z_ok (base_b (byte_to_Z P) + b_offset (byte_to_Z c)))
    as (-> & _); [lia|].
  reflexivity.
Qed.

Lemma range_in (a n : Z) : 0 <= a < n -> In a (range n).
Proof.
  intros Ha. unfold range. apply in_map_iff. exists (Z.to_nat a).
  split; [lia|]. apply in_seq. lia.
Qed.

(** X4.  True-colour tiles are stored as planes and emitted interleaved.
    When the buffer holds the three planes (four for 32bpp), the decoder
    succeeds and pixel [index] is made of the pair at [2*index], the
    correction byte at [2*tile_size + index] and, for 32bpp, the alpha byte
    at [3*tile_size + index], which is copied unchanged; the output has 3
    (or 4) bytes per pixel. *)
Theorem decode_truecolor_planes (bpp tsize : Z) (dec_buf : bytes) :
  0 <= tsize ->
  (if bpp =? 32 then 4 else 3) * tsize <= len dec_buf ->
  decode_truecolor bpp tsize dec_buf
  = Ok (flat_map
          (fun index =>
             let P := byte_to_Z (nth (Z.to_nat (index * 2)) dec_buf x00) in
             let Q := byte_to_Z (nth (Z.to_nat (index * 2 + 1)) dec_buf x00) in
             let c := byte_to_Z (nth (Z.to_nat (tsize * 2 + index)) dec_buf x00) in
             [byte_of_Z (base_r Q + r_offset c);
              byte_of_Z (base_g P Q + g_offset c);
              byte_of_Z (base_b P + b_offset c)]
             ++ (if bpp =? 32
                 then [nth (Z.to_nat (tsize * 3 + index)) dec_buf x00]
                 else []))
          (range tsize))
  /\ exists out,
       decode_truecolor bpp tsize dec_buf = Ok out
       /\ len out = (if bpp =? 32 then 4 else 3) * tsize.
Proof.
  intros Ht Hlen.
  match goal with
  | |- ?lhs = Ok (flat_map ?g ?l) /\ _ =>
      assert (lhs = Ok (flat_map g l)) as E
  end.
  { unfold decode_truecolor.
    rewrite for_each_collect with (g := fun index =>
      [byte_of_Z (base_r (byte_to_Z (nth (Z.to_nat (index * 2 + 1)) dec_buf x00))
                  + r_offset (byte_to_Z (nth (Z.to_nat (tsize * 2 + index))
                                           dec_buf x00)));
       byte_of_Z (base_g (byte_to_Z (nth (Z.to_nat (index * 2)) dec_buf x00))
                    (byte_to_Z (nth (Z.to_nat (index * 2 + 1)) dec_buf x00))
                  + g_offset (byte_to_Z (nth (Z.to_nat (tsize * 2 + index))
                                           dec_buf x00)));
       byte_of_Z (base_b (byte_to_Z (nth (Z.to_nat (index * 2)) dec_buf x00))
                  + b_offset (byte_to_Z (nth (Z.to_nat (tsize * 2 + index))
                                           dec_buf x00)))]
      ++ (if bpp =? 32
          then [nth (Z.to_nat (tsize * 3 + index)) dec_buf x00]
          else [])); [reflexivity|].
    intros index acc Hin. apply in_range in Hin.
    unfold decode_truecolor_pixel.
    destruct (bpp =? 32).
    - rewrite !byte_at_nth by lia. cbn [rbind].
      rewrite pack_rgb_bytes, pack_B_byte. reflexivity.
    - rewrite !byte_at_nth by lia. cbn [rbind].
      rewrite pack_rgb_bytes. cbn [rbind]. now rewrite app_nil_r. }
  split; [exact E|]. eexists. split; [exact E|].
  unfold len.
  rewrite (flat_map_constant_length _ (if bpp =? 32 then 4%nat else 3%nat)).
  - rewrite range_length. destruct (bpp =? 32); lia.
  - intros index. destruct (bpp =? 32); reflexivity.
Qed.

(** One 32bpp pixel: pair (0xF8, 0x00), correction 0xFF, alpha 0x80. *)
Lemma decode_truecolor_planes_witness :
  decode_truecolor 32 1 [xf8; x00; xff; x80] = Ok [x07; x1f; xc7; x80].
Proof.
  exact (proj1 (decode_truecolor_planes 32 1 [xf8; x00; xff; x80]
                  ltac:(lia) ltac:(cbn; lia))).
Defined.

Lemma for_each_ok_in {A S} (body : A -> S -> result S) (l : list A) :
  forall s s', for_each l body s = Ok s' ->
  forall a, In a l -> exists s1 s2, body a s1 = Ok s2.
Proof.
  induction l as [|x l IH]; intros s s' E a Ha; [contradiction|].
  cbn [for_each] in E.
  destruct (body x s) as [s1|] eqn:Ex; cbn [rbind] in E; [|discriminate].
  destruct Ha as [<- | Ha]; [eauto|]. eapply IH; eassumption.
Qed.

Lemma byte_at_in_range (dec_buf : bytes) (i v : Z) :
  byte_at dec_buf i = Ok v -> i < len dec_buf.
Proof.
  unfold byte_at.
  destruct (py_getitem dec_buf i) as [b|] eqn:E; [|discriminate].
  intros _. apply py_getitem_in_range in E. lia.
Qed.

(** X5.  A buffer that is too short for the planes makes the true-colour
    decoder raise [IndexError]: the tile is never silently padded or cut. *)
Theorem decode_truecolor_short_buffer (bpp tsize : Z) (dec_buf : bytes) :
  0 < tsize ->
  len dec_buf < (if bpp =? 32 then 4 else 3) * tsize ->
  decode_truecolor bpp tsize dec_buf = Raise IndexError.
Proof.
  intros Ht Hlen.
  destruct (decode_truecolor bpp tsize dec_buf) as [out|e] eqn:E.
  - exfalso. unfold decode_truecolor in E.
    destruct (for_each_ok_in _ _ _ _ E (tsize - 1)) as (s1 & s2 & Hb);
      [apply range_in; lia|].
    unfold decode_truecolor_pixel in Hb.
    destruct (byte_at dec_buf ((tsize - 1) * 2)); [|discriminate].
    destruct (byte_at dec_buf ((tsize - 1) * 2 + 1)); [|discriminate].
    destruct (byte_at dec_buf (tsize * 2 + (tsize - 1))) eqn:Ec;
      [|discriminate].
    cbn [rbind] in Hb. apply byte_at_in_range in Ec.
    destruct (bpp =? 32); [|lia].
    destruct (byte_at dec_buf (tsize * 3 + (tsize - 1))) eqn:Ea;
      [|discriminate].
    apply byte_at_in_range in Ea. lia.
  - f_equal. unfold decode_truecolor in E.
    apply (for_each_raises (fun e => e = IndexError)) in E; [exact E|].
    intros a s e'. apply decode_truecolor_pixel_raises.
Qed.

(** A 2x1 RGB tile needs six bytes; five are given. *)
Lemma decode_truecolor_short_buffer_witness :
  decode_truecolor 24 2 [x00; x00; x00; x00; x00] = Raise IndexError.
Proof.
  apply decode_truecolor_short_buffer; cbn; lia.
Defined.

(** X6.  A HEP buffer that holds the palette and at most the 32 header
    bytes has no pixel: the decoder returns the empty tile, without error. *)
Theorem decode_hep_no_pixels (dec_buf : bytes) :
  (1024 <= length dec_buf <= 1056)%nat -> decode_hep dec_buf = Ok [].
Proof.
  intros Hlen. unfold decode_hep.
  assert (hep_image_data dec_buf = []) as ->; [|reflexivity].
  unfold hep_image_data, py_slice, clamp_index.
  destruct (Z.ltb_spec 32 0); [lia|].
  destruct (Z.ltb_spec (Z.of_nat (length dec_buf) - 1024) 0); [lia|].
  replace (Z.to_nat _) with 0%nat by lia. reflexivity.
Qed.

Lemma decode_hep_no_pixels_witness :
  decode_hep (repeat x00 1040) = Ok [].
Proof.
  apply decode_hep_no_pixels. rewrite repeat_length. lia.
Defined.

(** ** Header parsing: what can come out of [extract_desc] *)

Lemma extract_desc_from_any_position (data : bytes) (real_offset pos0 : nat) :
  extract_desc data real_offset pos0 = extract_desc data real_offset 0%nat.
Proof.
  reflexivity.
Qed.

Lemma unpack_header_wrong_length (raw : bytes) :
  length raw <> 16%nat -> unpack_header raw = Raise StructError.
Proof.
  intros Hlen. unfold unpack_header.
  do 17 (destruct raw as [|? raw]; try reflexivity).
  cbn in Hlen. lia.
Qed.

(** X7.  When fewer than sixteen bytes are left at the descriptor's offset,
    [extract_desc] raises [struct.error]; it does not read a partial
    descriptor. *)
Theorem extract_desc_short_header (data : bytes) (real_offset pos0 : nat) :
  (length data < real_offset + 16)%nat ->
  extract_desc data real_offset pos0 = Raise StructError.
Proof.
  intros Hlen. unfold extract_desc, mbind, seek, read, lift.
  rewrite unpack_header_wrong_length; [reflexivity|].
  rewrite length_firstn, length_skipn. change (Pos.to_nat 16) with 16%nat. lia.
Qed.

Lemma extract_desc_short_header_witness :
  extract_desc [x04; x00; x04; x00] 0%nat 0%nat = Raise StructError.
Proof.
  apply extract_desc_short_header. cbn. lia.
Defined.

Lemma extract_desc_rejects_type
    (data : bytes) (real_offset pos0 : nat) (h : header) :
  unpack_header (firstn 16 (skipn real_offset data)) = Ok h ->
  mem (bmp_type h) [0x01; 0x03; 0x08; 0x0B; 0x0C] = false ->
  extract_desc data real_offset pos0 = Raise (Exit UnknownType).
Proof.
  intros H Ht. unfold extract_desc, mbind, seek, read, lift.
  change (Pos.to_nat 16) with 16%nat. rewrite H, Ht. reflexivity.
Qed.

(** X8.  A descriptor whose type is not one of 0x01, 0x03, 0x08, 0x0B, 0x0C
    is rejected with the "Unknown type" exit, whatever its depth and before
    anything else is read. *)
Theorem extract_desc_unknown_type
    (data : bytes) (real_offset pos0 : nat) (h : header) :
  unpack_header (firstn 16 (skipn real_offset data)) = Ok h ->
  mem (bmp_type h) [0x01; 0x03; 0x08; 0x0B; 0x0C] = false ->
  extract_desc data real_offset pos0 = Raise (Exit UnknownType).
Proof.
  exact (extract_desc_rejects_type data real_offset pos0 h).
Qed.

Lemma extract_desc_unknown_type_witness :
  extract_desc (mk_header 4 4 4 4 1 1 0x02 0x14 0) 0%nat 0%nat
  = Raise (Exit UnknownType).
Proof.
  exact (extract_desc_unknown_type (mk_header 4 4 4 4 1 1 0x02 0x14 0)
           0%nat 0%nat
           {| width := 4; height := 4; tile_width := 4; tile_height := 4;
              tile_x_count := 1; tile_y_count := 1; bmp_type := 0x02;
              bmp_depth := 0x14; tile_crop := 0 |} eq_refl eq_refl).
Defined.

Lemma extract_desc_rejects_peh
    (data : bytes) (real_offset pos0 : nat) (h : header) :
  unpack_header (firstn 16 (skipn real_offset data)) = Ok h ->
  bmp_type h = 0x03 ->
  extract_desc data real_offset pos0 = Raise (Exit UnsupportedPEH).
Proof.
  intros H Ht. unfold extract_desc, mbind, seek, read, lift.
  change (Pos.to_nat 16) with 16%nat. rewrite H.
  unfold is_indexed_bitmap, mem. rewrite Ht. reflexivity.
Qed.

(** X9.  A PEH descriptor (type 0x03) is always rejected with the
    "Unsupported type (PEH)" exit, whatever its depth. *)
Theorem extract_desc_peh_unsupported
    (data : bytes) (real_offset pos0 : nat) (h : header) :
  unpack_header (firstn 16 (skipn real_offset data)) = Ok h ->
  bmp_type h = 0x03 ->
  extract_desc data real_offset pos0 = Raise (Exit UnsupportedPEH).
Proof.
  exact (extract_desc_rejects_peh data real_offset pos0 h).
Qed.

Lemma extract_desc_peh_unsupported_witness :
  extract_desc (mk_header 4 4 4 4 1 1 0x03 0x01 0) 0%nat 0%nat
  = Raise (Exit UnsupportedPEH).
Proof.
  exact (extract_desc_peh_unsupported (mk_header 4 4 4 4 1 1 0x03 0x01 0)
           0%nat 0%nat
           {| width := 4; height := 4; tile_width := 4; tile_height := 4;
              tile_x_count := 1; tile_y_count := 1; bmp_type := 0x03;
              bmp_depth := 0x01; tile_crop := 0 |} eq_refl eq_refl).
Defined.

Lemma extract_desc_unknown_depth_indexed
    (data : bytes) (real_offset pos0 : nat) (h : header) :
  unpack_header (firstn 16 (skipn real_offset data)) = Ok h ->
  bmp_type h = 0x01 ->
  mem (bmp_depth h) [0x01; 0x00; 0x10; 0x11; 0x91] = false ->
  extract_desc data real_offset pos0 = Raise (Exit UnknownDepth).
Proof.
  intros H Ht Hd. unfold extract_desc, mbind, seek, read, lift.
  change (Pos.to_nat 16) with 16%nat. rewrite H.
  unfold is_indexed_bitmap, mem in *. rewrite Ht. cbn [existsb] in Hd.
  rewrite !orb_false_iff in Hd.
  destruct Hd as (-> & -> & -> & -> & -> & _). reflexivity.
Qed.

Lemma extract_desc_unknown_depth_truecolor
    (data : bytes) (real_offset pos0 : nat) (h : header) :
  unpack_header (firstn 16 (skipn real_offset data)) = Ok h ->
  bmp_type h = 0x08 \/ bmp_type h = 0x0B ->
  bmp_depth h <> 0x14 ->
  extract_desc data real_offset pos0 = Raise (Exit UnknownDepth).
Proof.
  intros H Ht Hd. unfold extract_desc, mbind, seek, read, lift.
  change (Pos.to_nat 16) with 16%nat. rewrite H.
  unfold is_indexed_bitmap, mem. apply Z.eqb_neq in Hd.
  destruct Ht as [-> | ->]; cbn; now rewrite Hd.
Qed.

(** X10.  An indexed descriptor (type 0x01) whose depth is not 0x00, 0x01,
    0x10, 0x11 or 0x91, and an RGB or RGBA descriptor (type 0x08 or 0x0B)
    whose depth is not 0x14, are rejected with the "Unknown depth" exit. *)
Theorem extract_desc_unknown_depth
    (data : bytes) (real_offset pos0 : nat) (h : header) :
  unpack_header (firstn 16 (skipn real_offset data)) = Ok h ->
  (bmp_type h = 0x01 /\ mem (bmp_depth h) [0x01; 0x00; 0x10; 0x11; 0x91] = false)
  \/ ((bmp_type h = 0x08 \/ bmp_type h = 0x0B) /\ bmp_depth h <> 0x14) ->
  extract_desc data real_offset pos0 = Raise (Exit UnknownDepth).
Proof.
  intros H [(Ht & Hd) | (Ht & Hd)].
  - now apply (extract_desc_unknown_depth_indexed _ _ _ h).
  - now apply (extract_desc_unknown_depth_truecolor _ _ _ h).
Qed.

Lemma extract_desc_unknown_depth_witness :
  extract_desc (mk_header 4 4 4 4 1 1 0x0B 0x11 0) 0%nat 0%nat
  = Raise (Exit UnknownDepth)
  /\ extract_desc (mk_header 4 4 4 4 1 1 0x01 0x14 0) 0%nat 0%nat
     = Raise (Exit UnknownDepth).
Proof.
  split.
  - apply (extract_desc_unknown_depth (mk_header 4 4 4 4 1 1 0x0B 0x11 0)
             0%nat 0%nat
             {| width := 4; height := 4; tile_width := 4; tile_height := 4;
                tile_x_count := 1; tile_y_count := 1; bmp_type := 0x0B;
                bmp_depth := 0x11; tile_crop := 0 |} eq_refl).
    right. split; [now right | cbn; lia].
  - apply (extract_desc_unknown_depth (mk_header 4 4 4 4 1 1 0x01 0x14 0)
             0%nat 0%nat
             {| width := 4; height := 4; tile_width := 4; tile_height := 4;
                tile_x_count := 1; tile_y_count := 1; bmp_type := 0x01;
                bmp_depth := 0x14; tile_crop := 0 |} eq_refl).
    left. split; reflexivity.
Defined.

Lemma read_palette_entry_raises (data : bytes) (p : palette) (pos : nat)
    (e : exn) :
  read_palette_entry data p pos = Raise e -> e = StructError.
Proof.
  unfold read_palette_entry, mbind, read, lift, mret.
  destruct (firstn 1 (skipn _ data)) as [|a0 [|]]; cbn [unpack_B];
    try congruence.
  unfold pack_B. destruct (_ && _); [|congruence].
  destruct (Byte.of_N _); congruence.
Qed.

Lemma mfor_raises {A S} (P : exn -> Prop) (body : A -> S -> M S) :
  (forall a s pos e, body a s pos = Raise e -> P e) ->
  forall l s pos e, mfor l body s pos = Raise e -> P e.
Proof.
  intros Hbody l. induction l as [|a l IH]; intros s pos e; cbn [mfor].
  - discriminate.
  - unfold mbind. destruct (body a s pos) as [[s1 pos1]|e1] eqn:E.
    + apply IH.
    + intros [= <-]. eapply Hbody; eassumption.
Qed.

Lemma read_palette_linear_raises (data : bytes) (count : Z) (p : palette)
    (pos : nat) (e : exn) :
  read_palette_linear data count p pos = Raise e -> e = StructError.
Proof.
  unfold read_palette_linear.
  apply (mfor_raises (fun e => e = StructError)).
  intros _. apply read_palette_entry_raises.
Qed.

Lemma read_palette_blocks_raises (data : bytes) (count : Z) (p : palette)
    (pos : nat) (e : exn) :
  read_palette_blocks data count p pos = Raise e -> e = StructError.
Proof.
  unfold read_palette_blocks. unfold mbind at 1, tell.
  apply (mfor_raises (fun e => e = StructError)). intros h.
  apply (mfor_raises (fun e => e = StructError)). intros i.
  apply (mfor_raises (fun e => e = StructError)). intros j q pos1 e1.
  unfold mbind, seek.
  apply (mfor_raises (fun e => e = StructError)).
  intros _. apply read_palette_entry_raises.
Qed.

Lemma unpack_header_raises (raw : bytes) (e : exn) :
  unpack_header raw = Raise e -> e = StructError.
Proof.
  unfold unpack_header.
  do 17 (destruct raw as [|? raw]; try congruence).
Qed.

Lemma accepted_depths (depth : Z) :
  mem depth [0x01; 0x00; 0x10; 0x11; 0x91] = true ->
  (depth = 0x00 \/ depth = 0x10)
  \/ (depth = 0x01 \/ depth = 0x11 \/ depth = 0x91).
Proof.
  unfold mem. cbn [existsb].
  rewrite !orb_true_iff, !Z.eqb_eq. intuition congruence.
Qed.

(** The ways in which the embedding of [extract_desc] can end, once it has
    been given the offset of the first entry and with every
    [logger.error] / pause / [sys.exit] sequence taken as one exit. *)
Lemma extract_desc_outcomes (data : bytes) (real_offset pos0 : nat) :
  (exists d pos, extract_desc data real_offset pos0 = Ok (d, pos))
  \/ extract_desc data real_offset pos0 = Raise StructError
  \/ extract_desc data real_offset pos0 = Raise (Exit UnknownType)
  \/ extract_desc data real_offset pos0 = Raise (Exit UnknownDepth)
  \/ extract_desc data real_offset pos0 = Raise (Exit UnsupportedPEH).
Proof.
  destruct (unpack_header (firstn 16 (skipn real_offset data))) as [h|e] eqn:H.
  2:{ right; left. apply unpack_header_raises in H as He. subst e.
      unfold extract_desc, mbind, seek, read, lift.
      change (Pos.to_nat 16) with 16%nat. now rewrite H. }
  destruct (mem (bmp_type h) [0x01; 0x03; 0x08; 0x0B; 0x0C]) eqn:Ht.
  2:{ right; right; left. now apply (extract_desc_rejects_type _ _ _ h). }
  unfold mem in Ht. cbn [existsb] in Ht.
  rewrite !orb_true_iff, !Z.eqb_eq in Ht.
  destruct Ht as [Ht | [Ht | [Ht | [Ht | [Ht | Ht]]]]]; [| | | | |discriminate].
  - (* indexed *)
    rewrite extract_desc_from_any_position.
    destruct (mem (bmp_depth h) [0x01; 0x00; 0x10; 0x11; 0x91]) eqn:Hd.
    + apply accepted_depths in Hd. destruct Hd as [Hd | Hd].
      * rewrite (extract_desc_linear data real_offset h H Ht Hd).
        destruct (read_palette_linear data 0x10 empty_palette _)
          as [[p pos]|e] eqn:E; [left; eauto|].
        apply read_palette_linear_raises in E. subst e. auto.
      * rewrite (extract_desc_blocks data real_offset h H Ht Hd).
        destruct (read_palette_blocks data 0x100 empty_palette _)
          as [[p pos]|e] eqn:E; [left; eauto|].
        apply read_palette_blocks_raises in E. subst e. auto.
    + right; right; right; left.
      now apply (extract_desc_unknown_depth_indexed _ _ _ h).
  - right; right; right; right.
    now apply (extract_desc_rejects_peh _ _ _ h).
  - destruct (Z.eq_dec (bmp_depth h) 0x14) as [Hd | Hd].
    + left. unfold extract_desc, mbind, seek, read, lift, mret.
      change (Pos.to_nat 16) with 16%nat. rewrite H.
      unfold is_indexed_bitmap, mem. rewrite Ht, Hd. cbn -[firstn]. eauto.
    + right; right; right; left.
      apply (extract_desc_unknown_depth_truecolor _ _ _ h); auto.
  - destruct (Z.eq_dec (bmp_depth h) 0x14) as [Hd | Hd].
    + left. unfold extract_desc, mbind, seek, read, lift, mret.
      change (Pos.to_nat 16) with 16%nat. rewrite H.
      unfold is_indexed_bitmap, mem. rewrite Ht, Hd. cbn -[firstn]. eauto.
    + right; right; right; left.
      apply (extract_desc_unknown_depth_truecolor _ _ _ h); auto.
  - left. unfold extract_desc, mbind, seek, read, lift, mret.
    change (Pos.to_nat 16) with 16%nat. rewrite H.
    unfold is_indexed_bitmap, mem. rewrite Ht. cbn -[firstn].
    destruct (bmp_depth h =? 17); eauto.
Qed.

(** X11.  The "Unsupported palette type" exit of the indexed branch is dead
    code: a depth that passes the depth check (0x00, 0x01, 0x10, 0x11 or
    0x91) is always in one of the two palette lists, so [extract_desc] never
    ends there, whatever the file holds. *)
Theorem unsupported_palette_exit_unreachable
    (data : bytes) (real_offset pos0 : nat) :
  extract_desc data real_offset pos0 <> Raise (Exit UnsupportedPalette).
Proof.
  destruct (extract_desc_outcomes data real_offset pos0)
    as [(d & pos & E) | [E | [E | [E | E]]]]; rewrite E; discriminate.
Qed.

Section PaletteBytes.

Variable data : bytes.

Lemma read_palette_entry_consumes (p : palette) (pos : nat) (p' : palette)
    (pos' : nat) :
  read_palette_entry data p pos = Ok (p', pos') ->
  pos' = (pos + 4)%nat /\ (pos + 4 <= length data)%nat.
Proof.
  unfold read_palette_entry, mbind, read, lift, mret.
  set (r := firstn 1 (skipn pos data)).
  set (g := firstn 1 (skipn (pos + length r) data)).
  set (b := firstn 1 (skipn (pos + length r + length g) data)).
  set (raw := firstn 1 (skipn (pos + length r + length g + length b) data)).
  assert (length r = Nat.min 1 (length data - pos)) as Hr
    by (unfold r; now rewrite length_firstn, length_skipn).
  assert (length g = Nat.min 1 (length data - (pos + length r))) as Hg
    by (unfold g; now rewrite length_firstn, length_skipn).
  assert (length b = Nat.min 1 (length data - (pos + length r + length g)))
    as Hb by (unfold b; now rewrite length_firstn, length_skipn).
  assert (length raw
          = Nat.min 1 (length data - (pos + length r + length g + length b)))
    as Hraw by (unfold raw; now rewrite length_firstn, length_skipn).
  destruct raw as [|a0 [|]]; cbn [unpack_B]; try discriminate.
  destruct (pack_B _) as [a|]; [|discriminate].
  intros [= _ <-]. cbn [length] in *. lia.
Qed.

Lemma read_palette_entries_consume {A} (l : list A) :
  forall (p : palette) (pos : nat) (p' : palette) (pos' : nat),
    mfor l (fun _ => read_palette_entry data) p pos = Ok (p', pos') ->
    pos' = (pos + 4 * length l)%nat
    /\ (l <> [] -> pos + 4 * length l <= length data)%nat.
Proof.
  induction l as [|a l IH]; intros p pos p' pos'; cbn [mfor length].
  - unfold mret. intros [= _ <-]. split; [lia | congruence].
  - unfold mbind.
    destruct (read_palette_entry data p pos) as [[p1 pos1]|] eqn:E1;
      [|discriminate].
    apply read_palette_entry_consumes in E1. destruct E1 as (-> & H1).
    intros E2. apply IH in E2. destruct E2 as (-> & H2).
    split; [lia|]. intros _.
    destruct l as [|b l]; [cbn [length]; lia|].
    assert (b :: l <> []) as Hne by discriminate.
    specialize (H2 Hne). lia.
Qed.

Lemma mfor_ok_in {A S} (body : A -> S -> M S) (l : list A) :
  forall s pos s' pos',
    mfor l body s pos = Ok (s', pos') ->
    forall a, In a l ->
      exists s1 pos1 s2 pos2, body a s1 pos1 = Ok (s2, pos2).
Proof.
  induction l as [|x l IH]; intros s pos s' pos' E a Ha; [contradiction|].
  cbn [mfor] in E. unfold mbind in E.
  destruct (body x s pos) as [[s1 pos1]|] eqn:Ex; [|discriminate].
  destruct Ha as [<- | Ha]; [eauto 6|]. eapply IH; eassumption.
Qed.

Lemma read_palette_linear_needs (p : palette) (pos : nat) (p' : palette)
    (pos' : nat) :
  read_palette_linear data 0x10 p pos = Ok (p', pos') ->
  (pos + 64 <= length data)%nat.
Proof.
  unfold read_palette_linear. intros E.
  apply read_palette_entries_consume in E. destruct E as (_ & H).
  change (length (range 0x10)) with 16%nat in H.
  assert (range 0x10 <> []) as Hne by discriminate. specialize (H Hne). lia.
Qed.

Lemma read_palette_blocks_needs (p : palette) (pos : nat) (p' : palette)
    (pos' : nat) :
  read_palette_blocks data 0x100 p pos = Ok (p', pos') ->
  (pos + 1024 <= length data)%nat.
Proof.
  unfold read_palette_blocks. unfold mbind at 1, tell.
  change (0x100 * 4 / 0x80) with 8. intros E.
  destruct (mfor_ok_in _ _ _ _ _ _ E 7) as (s1 & q1 & s2 & q2 & E1);
    [apply range_in; lia|].
  destruct (mfor_ok_in _ _ _ _ _ _ E1 1) as (s3 & q3 & s4 & q4 & E2);
    [apply range_in; lia|].
  destruct (mfor_ok_in _ _ _ _ _ _ E2 1) as (s5 & q5 & s6 & q6 & E3);
    [apply range_in; lia|].
  unfold mbind, seek in E3.
  apply read_palette_entries_consume in E3. destruct E3 as (_ & H).
  change (length (range 8)) with 8%nat in H.
  assert (range 8 <> []) as Hne by discriminate. specialize (H Hne).
  unfold sub_block_offset in H. lia.
Qed.

End PaletteBytes.

(** X12.  A palette that is cut short makes header parsing raise
    [struct.error]: for an indexed descriptor with an accepted depth, when
    fewer than 64 bytes (depth 0x00 or 0x10) or 1024 bytes (depth 0x01, 0x11
    or 0x91) follow the descriptor, no palette is built and no entry is
    padded in its place. *)
Theorem extract_desc_truncated_palette
    (data : bytes) (real_offset pos0 : nat) (h : header) :
  unpack_header (firstn 16 (skipn real_offset data)) = Ok h ->
  bmp_type h = 0x01 ->
  mem (bmp_depth h) [0x01; 0x00; 0x10; 0x11; 0x91] = true ->
  (length data
   < real_offset + 16
     + (if mem (bmp_depth h) [0x00; 0x10]%Z then 64 else 1024))%nat ->
  extract_desc data real_offset pos0 = Raise StructError.
Proof.
  intros H Ht Hd Hlen. rewrite extract_desc_from_any_position.
  apply accepted_depths in Hd. destruct Hd as [Hd | Hd].
  - rewrite (extract_desc_linear data real_offset h H Ht Hd).
    destruct (read_palette_linear data 0x10 empty_palette _)
      as [[p pos]|e] eqn:E.
    + apply read_palette_linear_needs in E.
      destruct Hd as [Hz | Hz]; rewrite Hz in Hlen; cbn in Hlen; lia.
    + apply read_palette_linear_raises in E. now subst e.
  - rewrite (extract_desc_blocks data real_offset h H Ht Hd).
    destruct (read_palette_blocks data 0x100 empty_palette _)
      as [[p pos]|e] eqn:E.
    + apply read_palette_blocks_needs in E.
      destruct Hd as [Hz | [Hz | Hz]]; rewrite Hz in Hlen; cbn in Hlen; lia.
    + apply read_palette_blocks_raises in E. now subst e.
Qed.

(** A 4bpp descriptor followed by 15 palette entries instead of 16. *)
Lemma extract_desc_truncated_palette_witness :
  extract_desc (mk_header 4 4 4 4 1 1 0x01 0x10 0 ++ repeat x00 60)
    0%nat 0%nat
  = Raise StructError.
Proof.
  apply (extract_desc_truncated_palette
           (mk_header 4 4 4 4 1 1 0x01 0x10 0 ++ repeat x00 60) 0%nat 0%nat
           {| width := 4; height := 4; tile_width := 4; tile_height := 4;
              tile_x_count := 1; tile_y_count := 1; bmp_type := 0x01;
              bmp_depth := 0x10; tile_crop := 0 |} eq_refl eq_refl eq_refl).
  vm_compute. lia.
Defined.

(** ** The compositor *)

Lemma py_position_nth (l : list bytes) (i : Z) (n : nat) (row extra : bytes) :
  py_position l i = Ok n ->
  py_getitem l i = Ok row ->
  nth_error l n = Some row
  /\ py_iadd_item l i extra = Ok (update_nth l n (fun r => r ++ extra)).
Proof.
  unfold py_getitem, py_iadd_item. intros ->. cbn [rbind].
  destruct (nth_error l n); [|discriminate]. now intros [= ->].
Qed.

Lemma Forall_update_nth {A} (P : A -> Prop) (f : A -> A) :
  forall (l : list A) (n : nat) (a : A),
    Forall P l -> nth_error l n = Some a -> P (f a) ->
    Forall P (update_nth l n f).
Proof.
  induction l as [|x l IH]; intros [|n] a Hl Hn Hf; cbn in *;
    try discriminate; inversion Hl; subst; constructor; auto.
  - now injection Hn as ->.
  - eapply IH; eassumption.
Qed.

Lemma Forall2_update_nth {A} (R : A -> A -> Prop) (f : A -> A) :
  (forall a, R a a) -> (forall a, R a (f a)) ->
  forall (l : list A) (n : nat), Forall2 R l (update_nth l n f).
Proof.
  intros Hrefl Hf. induction l as [|x l IH]; intros [|n]; cbn;
    constructor; auto.
  clear IH. induction l; constructor; auto.
Qed.

Lemma py_slice_length {A} (l : list A) (lo hi : Z) :
  (length (py_slice l lo hi) <= length l)%nat.
Proof.
  unfold py_slice. rewrite length_firstn, length_skipn. lia.
Qed.

Lemma py_slice_to_length {A} (l : list A) (hi : Z) :
  0 <= hi -> len (py_slice_to l hi) <= hi.
Proof.
  intros Hhi. unfold py_slice_to, py_slice, clamp_index, len.
  destruct (Z.ltb_spec 0 0); [lia|]. destruct (Z.ltb_spec hi 0); [lia|].
  rewrite length_firstn. lia.
Qed.

Section CompositorInvariants.

Variable dec_tile : Z -> result bytes.
Variable d : desc.
Variable bytesprepx : Z.

(** An invariant of the rows that every written scanline preserves is
    preserved by the whole stitching loop. *)
Lemma loop_scanlines_rows (I : list bytes -> Prop) :
  (forall (rs : list bytes) n (row extra tile_row_px : bytes),
     I rs -> nth_error rs n = Some row ->
     (length extra <= length (py_slice_to tile_row_px
                                (Z.min (width (hdr d))
                                   (len row + tile_width (hdr d))
                                 * bytesprepx - len row)))%nat ->
     I (update_nth rs n (fun r => r ++ extra))) ->
  forall start_row rowcount lines i c c',
    I (rows c) ->
    loop_scanlines d bytesprepx start_row rowcount i lines c = Ok c' ->
    I (rows c').
Proof.
  intros Hstep start_row rowcount lines.
  induction lines as [|tile_row_px rest IH]; intros i c c' Hc;
    cbn [loop_scanlines].
  - now intros [= <-].
  - destruct (i <? tile_crop (hdr d)); [now apply IH|].
    destruct (i - tile_crop (hdr d) >=? rowcount); [now intros [= <-]|].
    destruct (py_getitem (rows c) _) as [row|] eqn:Eg; cbn [rbind];
      [|discriminate].
    cbv zeta.
    match goal with
    | |- context [py_iadd_item (rows c) ?t ?x] =>
        destruct (py_position (rows c) t) as [n|] eqn:En;
        [|unfold py_getitem in Eg; rewrite En in Eg; discriminate];
        destruct (py_position_nth (rows c) t n row x En Eg) as (Hn & ->)
    end.
    cbn [rbind try_except_IndexError]. apply IH. cbn [rows].
    eapply Hstep; [exact Hc | exact Hn | apply py_slice_length].
Qed.

Lemma loop_data_rows (I : list bytes -> Prop) :
  (forall (rs : list bytes) n (row extra tile_row_px : bytes),
     I rs -> nth_error rs n = Some row ->
     (length extra <= length (py_slice_to tile_row_px
                                (Z.min (width (hdr d))
                                   (len row + tile_width (hdr d))
                                 * bytesprepx - len row)))%nat ->
     I (update_nth rs n (fun r => r ++ extra))) ->
  forall c c',
    I (rows c) -> loop_data dec_tile d bytesprepx c = Ok c' -> I (rows c').
Proof.
  intros Hstep c c' Hc. unfold loop_data.
  apply (for_each_invariant (fun s => I (rows s))); [|exact Hc].
  intros y s s' Hs. unfold loop_x.
  apply (for_each_invariant (fun s => I (rows s))); [|exact Hs].
  clear - Hstep. intros x s s' Hs.
  destruct (extract_tile dec_tile d _) as [dec_buf|]; cbn [rbind];
    [|discriminate].
  destruct (chunks dec_buf _) as [lines|]; cbn [rbind]; [|discriminate].
  now apply loop_scanlines_rows.
Qed.

(** X13.  The stitching loop only ever appends to rows: after [loop_data],
    every canvas row still starts with what it held before, and the canvas
    has the same number of rows. *)
Theorem loop_data_only_appends (c c' : canvas) :
  loop_data dec_tile d bytesprepx c = Ok c' ->
  Forall2 (fun row row' => exists extra, row' = row ++ extra)
    (rows c) (rows c').
Proof.
  apply (loop_data_rows
           (Forall2 (fun row row' => exists extra, row' = row ++ extra)
              (rows c))).
  - intros rs n row extra _ Hrs _ _.
    assert (Forall2 (fun r r' : bytes => exists e, r' = r ++ e)
              rs (update_nth rs n (fun r => r ++ extra))) as Hup.
    { apply Forall2_update_nth.
      - intros a. exists []. now rewrite app_nil_r.
      - intros a. now exists extra. }
    clear - Hrs Hup. revert Hup. generalize (update_nth rs n (fun r => r ++ extra)).
    induction Hrs as [|r0 r1 l0 l1 (e1 & ->) _ IH]; intros l2 Hup;
      inversion Hup as [|? r2 ? l2' (e2 & ->) Hup']; subst; constructor.
    + exists (e1 ++ e2). now rewrite app_assoc.
    + now apply IH.
  - clear. induction (rows c); constructor; auto.
    exists []. now rewrite app_nil_r.
Qed.

(** X14.  The stitching loop never enters the [except IndexError] handler
    of [loop_x]: whenever [loop_data] returns, nothing has been logged. *)
Theorem loop_data_never_logs (c c' : canvas) :
  loop_data dec_tile d bytesprepx c = Ok c' -> log c' = log c.
Proof.
  intros E. now apply loop_data_shape in E.
Qed.

(** The running width counter caps every row at the image width, provided
    each pixel takes at least one byte. *)
Lemma loop_data_rows_capped (c c' : canvas) :
  1 <= bytesprepx ->
  0 <= width (hdr d) ->
  0 <= tile_width (hdr d) ->
  Forall (fun row => len row <= width (hdr d) * bytesprepx) (rows c) ->
  loop_data dec_tile d bytesprepx c = Ok c' ->
  Forall (fun row => len row <= width (hdr d) * bytesprepx) (rows c').
Proof.
  intros Hb Hw Htw.
  apply (loop_data_rows
           (Forall (fun row => len row <= width (hdr d) * bytesprepx))).
  intros rs n row extra tile_row_px Hrs Hn Hextra.
  apply (Forall_update_nth _ _ rs n row Hrs Hn).
  assert (len row <= width (hdr d) * bytesprepx) as Hrow.
  { rewrite Forall_forall in Hrs. apply Hrs. eapply nth_error_In; eassumption. }
  assert (0 <= len row) as Hpos by (unfold len; lia).
  set (px_count := Z.min (width (hdr d)) (len row + tile_width (hdr d))
                   * bytesprepx - len row) in *.
  assert (0 <= px_count /\ len row + px_count <= width (hdr d) * bytesprepx)
    as (Hpx & Hcap).
  { unfold px_count.
    destruct (Z.min_spec (width (hdr d)) (len row + tile_width (hdr d)))
      as [(Hm & ->) | (Hm & ->)]; split; nia. }
  pose proof (py_slice_to_length tile_row_px px_count Hpx) as Hto.
  unfold len in *. rewrite length_app. lia.
Qed.

End CompositorInvariants.

(** X15.  Scanlines of a tile row that has nothing to show ([rowcount] not
    positive, a row of tiles that lies below the bottom edge of the image)
    are all skipped: the canvas is returned unchanged. *)
Theorem loop_scanlines_nothing_visible
    (d : desc) (bytesprepx start_row rowcount : Z) (lines : list bytes) :
  rowcount <= 0 ->
  forall i c, loop_scanlines d bytesprepx start_row rowcount i lines c = Ok c.
Proof.
  intros Hr. induction lines as [|tile_row_px rest IH]; intros i c;
    cbn [loop_scanlines]; [reflexivity|].
  destruct (Z.ltb_spec i (tile_crop (hdr d))); [apply IH|].
  destruct (Z.geb_spec (i - tile_crop (hdr d)) rowcount); [reflexivity | lia].
Qed.

Lemma loop_scanlines_nothing_visible_witness :
  loop_scanlines sample_crop_desc 3 8 0 0 [repeat x00 12; repeat x00 12]
    {| rows := repeat [] 6; log := [] |}
  = Ok {| rows := repeat [] 6; log := [] |}.
Proof.
  apply loop_scanlines_nothing_visible. lia.
Defined.

Lemma u16le_nonneg (lo hi : byte) : 0 <= u16le lo hi.
Proof.
  unfold u16le. pose proof (byte_to_Z_range lo). pose proof (byte_to_Z_range hi).
  lia.
Qed.

Lemma unpack_header_nonneg (raw : bytes) (h : header) :
  unpack_header raw = Ok h -> 0 <= width h /\ 0 <= tile_width h.
Proof.
  unfold unpack_header.
  do 17 (destruct raw as [|? raw]; try discriminate).
  intros [= <-]. cbn. split; apply u16le_nonneg.
Qed.

(** What a successful [extract_desc] says about the descriptor. *)
Lemma extract_desc_fields (data : bytes) (real_offset pos0 : nat)
    (d : desc) (pos : nat) :
  extract_desc data real_offset pos0 = Ok (d, pos) ->
  unpack_header (firstn 16 (skipn real_offset data)) = Ok (hdr d)
  /\ (forall bpp, bitmap_bpp d = Some bpp ->
        (is_indexed_bitmap (bmp_type (hdr d)) = true /\ (bpp = 4 \/ bpp = 8))
        \/ (is_indexed_bitmap (bmp_type (hdr d)) = false
            /\ (bpp = 24 \/ bpp = 32))).
Proof.
  unfold extract_desc, mbind, seek, read, lift, mraise, mret.
  change (Pos.to_nat 16) with 16%nat.
  destruct (unpack_header _) as [h|]; [|discriminate].
  destruct (negb _); [discriminate|].
  destruct (is_indexed_bitmap (bmp_type h)) eqn:Ei.
  - destruct (bmp_depth h =? 1);
      [|destruct (_ || _); [|destruct (_ || _); [|discriminate]]];
      cbn [fst snd];
      match goal with
      | |- match ?c with _ => _ end = _ -> _ =>
          destruct c as [[pl p2]|]; [|discriminate]
      end;
      intros [= <- <-]; cbn [hdr bitmap_bpp]; (split; [reflexivity|]);
      intros bpp [= <-]; left; auto.
  - repeat match goal with
           | |- (if ?c then _ else _) _ = _ -> _ => destruct c
           end;
      try discriminate; intros [= <- <-]; cbn [hdr bitmap_bpp];
      (split; [reflexivity|]); intros bpp; try discriminate;
      intros [= <-]; right; auto.
Qed.

(** X16.  In every completed run no canvas row is longer than the image
    width: at most [width * bytesprepx] bytes, where [bytesprepx] is 1 for
    indexed bitmaps, 3 for 24 and 4 for 32 bits per pixel.  Pixels that a
    tile would put beyond the right edge are cut off. *)
Theorem canvas_rows_within_width
    (dec_tile : Z -> result bytes) (data : bytes) (real_offset : nat)
    (c : canvas) (out : png) :
  mzp_init dec_tile data real_offset = Ok (c, out) ->
  exists d pos bpp,
    extract_desc data real_offset 0%nat = Ok (d, pos)
    /\ bitmap_bpp d = Some bpp
    /\ Forall (fun row =>
                 len row
                 <= width (hdr d) * (if bpp / 8 =? 0 then 1 else bpp / 8))
         (rows c).
Proof.
  unfold mzp_init.
  destruct (extract_desc data real_offset 0%nat) as [[d pos]|] eqn:Ed;
    cbn [rbind fst]; [|discriminate].
  destruct (bitmap_bpp d) as [bpp|] eqn:Eb; cbn [attribute rbind];
    [|discriminate].
  destruct (loop_data dec_tile d _ _) as [c1|] eqn:El; cbn [rbind];
    [|discriminate].
  destruct (output_png d c1) as [o|]; cbn [rbind]; [|discriminate].
  intros [= <- <-]. exists d, pos, bpp. split; [reflexivity|].
  split; [exact Eb|].
  destruct (extract_desc_fields _ _ _ _ _ Ed) as (Hh & Hbpp).
  destruct (unpack_header_nonneg _ _ Hh) as (Hw & Htw).
  assert (1 <= (if bpp / 8 =? 0 then 1 else bpp / 8)) as Hb.
  { destruct (Hbpp bpp Eb) as [(_ & [-> | ->]) | (_ & [-> | ->])];
      cbn; lia. }
  refine (loop_data_rows_capped dec_tile d _ _ c1 Hb Hw Htw _ El).
  cbn [rows]. unfold allocated_rows. apply Forall_forall.
  intros row Hrow. apply repeat_spec in Hrow. subst row.
  unfold len. cbn [length]. nia.
Qed.

Lemma canvas_rows_within_width_witness :
  exists c out,
    mzp_init zero_tiles sample_crop_2x2 0%nat = Ok (c, out)
    /\ Forall (fun row => len row <= 8 * 3) (rows c).
Proof.
  destruct (mzp_init zero_tiles sample_crop_2x2 0%nat) as [[c out]|] eqn:E;
    [|vm_compute in E; discriminate].
  destruct (canvas_rows_within_width zero_tiles sample_crop_2x2 0%nat c out E)
    as (d & pos & bpp & Ed & Eb & Hrows).
  exists c, out. split; [reflexivity|].
  vm_compute in Ed. injection Ed as <- <-.
  cbn in Eb. injection Eb as <-. exact Hrows.
Defined.

Lemma loop_data_only_appends_witness :
  Forall2 (fun row row' => exists extra, row' = row ++ extra)
    (repeat [] 6)
    [repeat x00 12; repeat x00 12; repeat x00 12; repeat x00 12; []; []].
Proof.
  exact (loop_data_only_appends zero_tiles sample_crop_desc 3
           {| rows := repeat [] 6; log := [] |}
           {| rows := [repeat x00 12; repeat x00 12; repeat x00 12;
                       repeat x00 12; []; []];
              log := [] |}
           ltac:(vm_compute; reflexivity)).
Defined.

Lemma loop_data_never_logs_witness :
  log {| rows := [repeat x00 12; repeat x00 12; repeat x00 12;
                  repeat x00 12; []; []];
         log := [] |} = [].
Proof.
  exact (loop_data_never_logs zero_tiles sample_crop_desc 3
           {| rows := repeat [] 6; log := [] |}
           {| rows := [repeat x00 12; repeat x00 12; repeat x00 12;
                       repeat x00 12; []; []];
              log := [] |}
           ltac:(vm_compute; reflexivity)).
Defined.

Lemma py_slice_whole {A} (l : list A) : py_slice l 0 (len l) = l.
Proof.
  rewrite py_slice_inside by (unfold len; lia).
  rewrite Z.sub_0_r. unfold len. rewrite Nat2Z.id. cbn [Z.to_nat skipn].
  apply firstn_all.
Qed.

Lemma update_nth_middle {A} (f : A -> A) (done : list A) (x : A)
    (rest : list A) :
  update_nth (done ++ x :: rest) (length done) f = done ++ f x :: rest.
Proof.
  induction done as [|a done IH]; cbn; [reflexivity | now rewrite IH].
Qed.

Lemma py_position_nonneg {A} (l : list A) (i : Z) (n : nat) :
  0 <= i -> py_position l i = Ok n -> n = Z.to_nat i.
Proof.
  intros Hi. unfold py_position.
  destruct (Z.leb_spec 0 i); [|lia].
  destruct (Z.ltb_spec i (Z.of_nat (length l))); cbn [andb].
  - now intros [= <-].
  - destruct (Z.ltb_spec i 0); [lia|]. rewrite andb_false_r. discriminate.
Qed.

Section SingleTile.

Variable d : desc.
Variable bytesprepx : Z.

Hypothesis no_crop : tile_crop (hdr d) = 0.
Hypothesis full_width : tile_width (hdr d) = width (hdr d).

(** Without crop and with a tile as wide as the image, every scanline of
    the tile goes whole into the next empty row. *)
Lemma loop_scanlines_fills (rowcount : Z) (lines : list bytes) :
  Forall (fun line => len line = width (hdr d) * bytesprepx) lines ->
  forall (done : list bytes) (k : nat) (c : canvas),
    len done + len lines <= rowcount ->
    rows c = done ++ repeat [] (length lines + k) ->
    loop_scanlines d bytesprepx 0 rowcount (len done) lines c
    = Ok {| rows := done ++ lines ++ repeat [] k; log := log c |}.
Proof.
  induction 1 as [|line rest Hline Hrest IH]; intros done k c Hcount Hrows.
  - cbn [loop_scanlines length Nat.add app] in *. rewrite <- Hrows.
    now destruct c.
  - cbn [loop_scanlines]. rewrite no_crop, full_width.
    assert (0 <= len done) as Hd0 by (unfold len; lia).
    unfold len in Hcount. cbn [length] in Hcount.
    destruct (Z.ltb_spec (len done) 0); [lia|].
    destruct (Z.geb_spec (len done - 0) rowcount); [unfold len in *; lia|].
    replace (0 + len done - 0) with (len done) by lia.
    cbn [length Nat.add repeat] in Hrows.
    assert (py_getitem (rows c) (len done) = Ok []) as Eg.
    { rewrite (py_getitem_nth (A := bytes) _ _ []).
      - unfold len. rewrite Nat2Z.id, Hrows, app_nth2, Nat.sub_diag by lia.
        reflexivity.
      - rewrite Hrows. unfold len. rewrite length_app. cbn [length]. lia. }
    rewrite Eg. cbn [rbind]. cbv zeta.
    change (len (@nil byte)) with 0.
    replace (Z.min (width (hdr d)) (0 + width (hdr d)) * bytesprepx - 0)
      with (len line) by lia.
    unfold py_slice_to. rewrite py_slice_whole.
    replace (0 * bytesprepx) with 0 by lia. rewrite Z.sub_0_r, py_slice_whole.
    destruct (py_position (rows c) (len done)) as [n|] eqn:En;
      [|unfold py_getitem in Eg; rewrite En in Eg; discriminate].
    destruct (py_position_nth _ _ _ _ line En Eg) as (_ & ->).
    assert (n = length done) as ->.
    { apply py_position_nonneg in En; [|lia]. unfold len in En. lia. }
    cbn [rbind try_except_IndexError].
    rewrite Hrows, update_nth_middle. cbn [app].
    replace (len done + 1) with (len (done ++ [line]))
      by (unfold len; rewrite length_app; cbn [length]; lia).
    rewrite (IH (done ++ [line]) k).
    + cbn [log]. now rewrite <- !app_assoc.
    + unfold len in *. rewrite length_app. cbn [length]. lia.
    + cbn [rows]. now rewrite <- app_assoc.
Qed.

End SingleTile.

(** X17.  One tile, no crop, tile and image of the same size: the canvas is
    the decoded tile cut into scanlines.  Every row is one scanline of
    [width * bytesprepx] bytes, in order, and the rows put end to end are
    the decoded tile. *)
Theorem single_tile_canvas
    (dec_tile : Z -> result bytes) (d : desc) (bytesprepx : Z) (buf : bytes) :
  tile_x_count (hdr d) = 1 ->
  tile_y_count (hdr d) = 1 ->
  tile_crop (hdr d) = 0 ->
  tile_width (hdr d) = width (hdr d) ->
  tile_height (hdr d) = height (hdr d) ->
  0 < width (hdr d) ->
  0 <= height (hdr d) ->
  0 < bytesprepx ->
  extract_tile dec_tile d 0 = Ok buf ->
  len buf = height (hdr d) * (width (hdr d) * bytesprepx) ->
  exists cs,
    loop_data dec_tile d bytesprepx {| rows := allocated_rows d; log := [] |}
    = Ok {| rows := cs; log := [] |}
    /\ concat cs = buf
    /\ len cs = height (hdr d)
    /\ Forall (fun row => len row = width (hdr d) * bytesprepx) cs.
Proof.
  intros Htx Hty Hcrop Htw Hth Hw Hh Hb Etile Hlen.
  destruct (chunks_tiling buf (width (hdr d) * bytesprepx) (height (hdr d)))
    as (cs & Ecs & Hcs & Hall); [nia | lia | exact Hlen |].
  destruct (chunks_concat_sizes buf (width (hdr d) * bytesprepx)) as
    (cs' & Ecs' & Hconcat & _); [nia|].
  rewrite Ecs in Ecs'. injection Ecs' as <-.
  exists cs. split; [|auto].
  unfold loop_data. rewrite Hty. change (range 1) with [0].
  cbn [for_each]. unfold loop_x. rewrite Htx. change (range 1) with [0].
  cbn [for_each]. change (1 * 0 + 0) with 0. rewrite Etile. cbn [rbind].
  rewrite Htw, Ecs. cbn [rbind].
  unfold rowcount_of, start_row_of. rewrite Hcrop, Hth.
  replace (0 * (height (hdr d) - 0 * 2)) with 0 by lia.
  replace (Z.min (height (hdr d)) (0 + height (hdr d)) - 0 - 0 * 2)
    with (height (hdr d)) by lia.
  change 0 with (len (@nil bytes)) at 1.
  rewrite (loop_scanlines_fills d bytesprepx Hcrop Htw (height (hdr d))
             cs Hall [] 0%nat).
  - cbn [rbind app rows log repeat]. now rewrite app_nil_r.
  - apply Z.eq_le_incl. exact Hcs.
  - cbn [rows app]. unfold allocated_rows. f_equal.
    rewrite Hty, Hcrop. unfold len, bytes in *. lia.
Qed.

(** An indexed 2x2 image in one tile. *)
Lemma single_tile_canvas_witness :
  exists cs,
    loop_data (fun _ => Ok [x01; x02; x03; x04])
      {| hdr := {| width := 2; height := 2; tile_width := 2; tile_height := 2;
                   tile_x_count := 1; tile_y_count := 1; bmp_type := 0x01;
                   bmp_depth := 0x01; tile_crop := 0 |};
         tile_size := 4; bitmap_bpp := Some 8; palette_count := None;
         pal := empty_palette |} 1
      {| rows := [[]; []]; log := [] |}
    = Ok {| rows := cs; log := [] |}
    /\ concat cs = [x01; x02; x03; x04]
    /\ len cs = 2
    /\ Forall (fun row => len row = 2 * 1) cs.
Proof.
  apply (single_tile_canvas (fun _ => Ok [x01; x02; x03; x04])
           {| hdr := {| width := 2; height := 2; tile_width := 2;
                        tile_height := 2; tile_x_count := 1;
                        tile_y_count := 1; bmp_type := 0x01;
                        bmp_depth := 0x01; tile_crop := 0 |};
              tile_size := 4; bitmap_bpp := Some 8; palette_count := None;
              pal := empty_palette |} 1 [x01; x02; x03; x04]);
    try reflexivity; cbn; lia.
Defined.

(** ** What a completed run writes *)

Lemma extract_desc_indexed_palette (data : bytes) (real_offset pos0 : nat)
    (d : desc) (pos : nat) :
  extract_desc data real_offset pos0 = Ok (d, pos) ->
  bmp_type (hdr d) = 0x01 ->
  length (palettepng (pal d)) = 768%nat /\ length (transpng (pal d)) = 256%nat.
Proof.
  intros Ed Ht.
  destruct (extract_desc_fields _ _ _ _ _ Ed) as (Hh & _).
  rewrite extract_desc_from_any_position in Ed.
  destruct (mem (bmp_depth (hdr d)) [0x01; 0x00; 0x10; 0x11; 0x91]) eqn:Hd.
  2:{ rewrite (extract_desc_unknown_depth_indexed _ _ _ _ Hh Ht Hd) in Ed.
      discriminate. }
  apply accepted_depths in Hd. destruct Hd as [Hd | Hd].
  - rewrite (extract_desc_linear _ _ _ Hh Ht Hd) in Ed.
    destruct (read_palette_linear data 0x10 empty_palette _)
      as [[p pos1]|] eqn:E; [|discriminate].
    injection Ed as Ed _. rewrite <- Ed. cbn [pal].
    apply read_palette_linear_built in E. destruct E as (_ & Hp & Ha).
    cbn in Hp, Ha. unfold pad_palette.
    rewrite pad_palette_eq, range2_length.
    change (Z.to_nat (0x100 - 0x10)) with 240%nat.
    cbn [palettepng transpng].
    rewrite !length_app, !concat_repeat_length, Hp, Ha. now split.
  - rewrite (extract_desc_blocks _ _ _ Hh Ht Hd) in Ed.
    destruct (read_palette_blocks data 0x100 empty_palette _)
      as [[p pos1]|] eqn:E; [|discriminate].
    injection Ed as Ed _. rewrite <- Ed. cbn [pal].
    apply read_palette_blocks_built in E. destruct E as (_ & Hp & Ha).
    cbn in Hp, Ha. now split.
Qed.

(** X18.  Every completed run on an indexed bitmap writes IHDR with bit
    depth 8 and colour type 3, a PLTE payload of exactly 768 bytes and a
    tRNS payload of exactly 256 bytes, also for 4bpp sources with 16
    colours. *)
Theorem indexed_run_writes_full_palette
    (dec_tile : Z -> result bytes) (data : bytes) (real_offset : nat)
    (c : canvas) (out : png) (d : desc) (pos : nat) :
  mzp_init dec_tile data real_offset = Ok (c, out) ->
  extract_desc data real_offset 0%nat = Ok (d, pos) ->
  bmp_type (hdr d) = 0x01 ->
  (exists w h, ihdr out = Some (w, h, 8, 3))
  /\ (exists p, plte out = Some p /\ length p = 768%nat)
  /\ (exists t, trns out = Some t /\ length t = 256%nat).
Proof.
  intros Einit Ed Ht.
  destruct (extract_desc_indexed_palette _ _ _ _ _ Ed Ht) as (Hp & Ha).
  unfold mzp_init in Einit. rewrite Ed in Einit. cbn [rbind fst] in Einit.
  destruct (attribute (bitmap_bpp d)) as [bpp|]; cbn [rbind] in Einit;
    [|discriminate].
  destruct (loop_data dec_tile d _ _) as [c1|]; cbn [rbind] in Einit;
    [|discriminate].
  destruct (output_png d c1) as [o|] eqn:Eo; cbn [rbind] in Einit;
    [|discriminate].
  injection Einit as _ <-.
  unfold output_png, is_indexed_bitmap in Eo. rewrite Ht in Eo.
  change (1 =? 1) with true in Eo. cbv iota in Eo.
  destruct (pack_ihdr _ _ 8 3) as [i|] eqn:Ei; cbn [rbind] in Eo;
    [|discriminate].
  apply pack_ihdr_ok in Ei. subst i. injection Eo as <-. cbn.
  repeat split; eauto.
Qed.

(** The 4bpp sample container with one 4x4 tile of sixteen index bytes. *)
Lemma indexed_run_writes_full_palette_witness :
  exists c out,
    mzp_init (fun _ => Ok (repeat x00 8)) (sample_indexed 0x10) 0%nat
    = Ok (c, out)
    /\ (exists w h, ihdr out = Some (w, h, 8, 3))
    /\ (exists p, plte out = Some p /\ length p = 768%nat)
    /\ (exists t, trns out = Some t /\ length t = 256%nat).
Proof.
  destruct (mzp_init (fun _ => Ok (repeat x00 8)) (sample_indexed 0x10) 0%nat)
    as [[c out]|] eqn:E; [|vm_compute in E; discriminate].
  destruct (extract_desc (sample_indexed 0x10) 0%nat 0%nat) as [[d pos]|] eqn:Ed;
    [|vm_compute in Ed; discriminate].
  exists c, out. split; [reflexivity|].
  apply (indexed_run_writes_full_palette _ _ _ c out d pos E Ed).
  vm_compute in Ed. injection Ed as <- _. reflexivity.
Defined.

(** X19.  Every completed run on a bitmap that is not indexed writes no
    PLTE and no tRNS, and IHDR with bit depth 8 and colour type 2 (RGB) for
    types 0x08 and 0x0C or 6 (RGBA) for type 0x0B. *)
Theorem truecolor_run_colour_type
    (dec_tile : Z -> result bytes) (data : bytes) (real_offset : nat)
    (c : canvas) (out : png) (d : desc) (pos : nat) :
  mzp_init dec_tile data real_offset = Ok (c, out) ->
  extract_desc data real_offset 0%nat = Ok (d, pos) ->
  bmp_type (hdr d) <> 0x01 ->
  plte out = None /\ trns out = None
  /\ exists w h,
       ihdr out = Some (w, h, 8, if bmp_type (hdr d) =? 0x0B then 6 else 2).
Proof.
  intros Einit Ed Ht.
  assert (bitmap_bpp d = Some (if bmp_type (hdr d) =? 0x0B then 32 else 24)
          \/ bitmap_bpp d = None) as Hbpp.
  { clear Einit. revert Ed.
    unfold extract_desc, mbind, seek, read, lift, mraise, mret.
    destruct (unpack_header _) as [h|]; [|discriminate].
    destruct (negb _); [discriminate|].
    destruct (is_indexed_bitmap (bmp_type h)) eqn:Ei.
    - match goal with
      | |- match ?c ?p with _ => _ end = _ -> _ =>
          destruct (c p) as [[bc p1]|]; [|discriminate]
      end.
      match goal with
      | |- match ?c with _ => _ end = _ -> _ =>
          destruct c as [[pl p2]|]; [|discriminate]
      end.
      intros [= <- _]. cbn [hdr] in Ht. unfold is_indexed_bitmap in Ei.
      apply Z.eqb_eq in Ei. contradiction.
    - destruct (Z.eqb_spec (bmp_type h) 0x08) as [E8|].
      { destruct (bmp_depth h =? 0x14); [|discriminate].
        intros [= <- _]. cbn [hdr bitmap_bpp]. rewrite E8. now left. }
      destruct (Z.eqb_spec (bmp_type h) 0x0B) as [EB|].
      { destruct (bmp_depth h =? 0x14); [|discriminate].
        intros [= <- _]. cbn [hdr bitmap_bpp]. rewrite EB. now left. }
      destruct (Z.eqb_spec (bmp_type h) 0x0C) as [EC|].
      { destruct (bmp_depth h =? 0x11); intros [= <- _];
          cbn [hdr bitmap_bpp]; rewrite EC; auto. }
      destruct (bmp_type h =? 0x03); [discriminate|].
      intros [= <- _]. now right. }
  unfold mzp_init in Einit. rewrite Ed in Einit. cbn [rbind fst] in Einit.
  destruct Hbpp as [Hbpp | Hbpp]; rewrite Hbpp in Einit;
    cbn [attribute rbind] in Einit; [|discriminate].
  destruct (loop_data dec_tile d _ _) as [c1|]; cbn [rbind] in Einit;
    [|discriminate].
  destruct (output_png d c1) as [o|] eqn:Eo; cbn [rbind] in Einit;
    [|discriminate].
  injection Einit as _ <-.
  unfold output_png, is_indexed_bitmap in Eo.
  apply Z.eqb_neq in Ht. rewrite Ht, Hbpp in Eo. cbn [attribute rbind] in Eo.
  destruct (bmp_type (hdr d) =? 0x0B).
  - change (32 =? 24) with false in Eo. change (32 =? 32) with true in Eo.
    cbv iota in Eo.
    destruct (pack_ihdr _ _ 8 6) as [i|] eqn:Ei; cbn [rbind] in Eo;
      [|discriminate].
    apply pack_ihdr_ok in Ei. subst i. injection Eo as <-. cbn. eauto.
  - change (24 =? 24) with true in Eo. cbv iota in Eo.
    destruct (pack_ihdr _ _ 8 2) as [i|] eqn:Ei; cbn [rbind] in Eo;
      [|discriminate].
    apply pack_ihdr_ok in Ei. subst i. injection Eo as <-. cbn. eauto.
Qed.

Lemma truecolor_run_colour_type_witness :
  exists c out,
    mzp_init zero_tiles sample_crop_2x2 0%nat = Ok (c, out)
    /\ plte out = None /\ trns out = None
    /\ exists w h, ihdr out = Some (w, h, 8, 2).
Proof.
  destruct (mzp_init zero_tiles sample_crop_2x2 0%nat) as [[c out]|] eqn:E;
    [|vm_compute in E; discriminate].
  exists c, out. split; [reflexivity|].
  apply (truecolor_run_colour_type zero_tiles sample_crop_2x2 0%nat c out
           sample_crop_desc 16%nat E); [reflexivity | cbn; lia].
Defined.

(** X20.  In every completed run the width and the height written in
    IHDR, [width - tile_x_count * tile_crop * 2] and
    [height - tile_y_count * tile_crop * 2], lie in 0..2^32-1: a completed run
    never declares a negative size. *)
Theorem completed_run_declares_valid_size
    (dec_tile : Z -> result bytes) (data : bytes) (real_offset : nat)
    (c : canvas) (out : png) (d : desc) (pos : nat) :
  mzp_init dec_tile data real_offset = Ok (c, out) ->
  extract_desc data real_offset 0%nat = Ok (d, pos) ->
  0 <= width (hdr d) - tile_x_count (hdr d) * tile_crop (hdr d) * 2 < 2 ^ 32
  /\ 0 <= height (hdr d) - tile_y_count (hdr d) * tile_crop (hdr d) * 2
     < 2 ^ 32.
Proof.
  intros Einit Ed.
  unfold mzp_init in Einit. rewrite Ed in Einit. cbn [rbind fst] in Einit.
  destruct (attribute (bitmap_bpp d)) as [bpp|] eqn:Eb; cbn [rbind] in Einit;
    [|discriminate].
  destruct (loop_data dec_tile d _ _) as [c1|]; cbn [rbind] in Einit;
    [|discriminate].
  destruct (output_png d c1) as [o|] eqn:Eo; cbn [rbind] in Einit;
    [|discriminate].
  clear Einit.
  assert (exists depth color,
            pack_ihdr (declared_width d) (declared_height d) depth color
            = Ok (declared_width d, declared_height d, depth, color))
    as (depth & color & Ei).
  { destruct (extract_desc_fields _ _ _ _ _ Ed) as (_ & Hbpp).
    unfold output_png in Eo. rewrite Eb in Eo.
    destruct (bitmap_bpp d) as [b|]; [|discriminate].
    injection Eb as <-.
    destruct (Hbpp b eq_refl) as [(Hi & _) | (Hi & Hb)]; rewrite Hi in Eo.
    - destruct (pack_ihdr _ _ 8 3) as [i|] eqn:Ei; cbn [rbind] in Eo;
          [|discriminate].
      apply pack_ihdr_ok in Ei as Hi'. subst i. eauto.
    - cbn [rbind] in Eo. destruct Hb as [-> | ->].
      + change (24 =? 24) with true in Eo. cbv iota in Eo.
        destruct (pack_ihdr _ _ 8 2) as [i|] eqn:Ei; cbn [rbind] in Eo;
          [|discriminate].
        apply pack_ihdr_ok in Ei as Hi'. subst i. eauto.
      + change (32 =? 24) with false in Eo. change (32 =? 32) with true in Eo.
        cbv iota in Eo.
        destruct (pack_ihdr _ _ 8 6) as [i|] eqn:Ei; cbn [rbind] in Eo;
          [|discriminate].
        apply pack_ihdr_ok in Ei as Hi'. subst i. eauto. }
  unfold pack_ihdr, declared_width, declared_height in Ei.
  destruct (_ && _) eqn:Hc in Ei; [|discriminate].
  rewrite !andb_true_iff in Hc.
  destruct Hc as (((((((H1 & H2) & H3) & H4) & _) & _) & _) & _).
  apply Z.leb_le in H1, H3. apply Z.ltb_lt in H2, H4. lia.
Qed.

Lemma completed_run_declares_valid_size_witness :
  exists c out,
    mzp_init zero_tiles sample_crop_2x2 0%nat = Ok (c, out)
    /\ 0 <= 8 - 2 * 1 * 2 < 2 ^ 32 /\ 0 <= 8 - 2 * 1 * 2 < 2 ^ 32.
Proof.
  destruct (mzp_init zero_tiles sample_crop_2x2 0%nat) as [[c out]|] eqn:E;
    [|vm_compute in E; discriminate].
  exists c, out. split; [reflexivity|].
  exact (completed_run_declares_valid_size zero_tiles sample_crop_2x2 0%nat
           c out sample_crop_desc 16%nat E eq_refl).
Defined.

(** ** The PNG writer *)

Lemma byte_of_Z_mod (v : Z) : byte_to_Z (byte_of_Z v) = v mod 256.
Proof.
  pose proof (Z.mod_pos_bound v 256 ltac:(lia)) as Hm.
  destruct (byte_of_Z_ok (v mod 256)) as (_ & E); [lia|].
  rewrite <- E. f_equal. unfold byte_of_Z.
  now rewrite Z.mod_mod by lia.
Qed.

Lemma pack_I_be32 (v : Z) :
  0 <= v < 2 ^ 32 ->
  exists s, pack_I v = Ok s /\ length s = 4%nat /\ be32 s = v.
Proof.
  intros Hv. unfold pack_I.
  destruct (Z.leb_spec 0 v); [|lia]. destruct (Z.ltb_spec v (2 ^ 32)); [|lia].
  eexists. split; [reflexivity|]. split; [reflexivity|].
  unfold be32. rewrite !byte_of_Z_mod.
  change (2 ^ 24) with (256 * 256 * 256) in *.
  change (2 ^ 16) with (256 * 256) in *.
  change (2 ^ 8) with 256 in *. change (2 ^ 32) with (256 * 256 * 256 * 256) in *.
  rewrite <- !Z.div_div by lia.
  pose proof (Z.div_mod v 256 ltac:(lia)).
  pose proof (Z.div_mod (v / 256) 256 ltac:(lia)).
  pose proof (Z.div_mod (v / 256 / 256) 256 ltac:(lia)).
  assert (0 <= v / 256 / 256 / 256 < 256).
  { split; [repeat apply Z.div_pos; lia|].
    repeat (apply Z.div_lt_upper_bound; [lia|]). lia. }
  rewrite (Z.mod_small (v / 256 / 256 / 256)) by lia. lia.
Qed.

(** X21.  [pack(">I", v)] and reading the field back are inverse: for
    every [v] below 2^32 the four bytes written hold [v], most significant
    byte first. *)
Theorem pack_I_round_trip (v : Z) :
  0 <= v < 2 ^ 32 ->
  exists s, pack_I v = Ok s /\ length s = 4%nat /\ be32 s = v.
Proof.
  exact (pack_I_be32 v).
Qed.

Lemma pack_I_round_trip_witness :
  exists s, pack_I 0x01020304 = Ok s /\ length s = 4%nat /\ be32 s = 0x01020304.
Proof.
  apply pack_I_round_trip. lia.
Defined.

Section PngWriterFacts.

Variable crc32 : bytes -> Z.
Variable compress : bytes -> bytes.

Lemma crc_field (s : bytes) :
  exists crc,
    pack_I (Z.land (crc32 s) 0xffffffff) = Ok crc
    /\ length crc = 4%nat
    /\ be32 crc = crc32 s mod 2 ^ 32.
Proof.
  change 0xffffffff with (Z.ones 32). rewrite Z.land_ones by lia.
  apply pack_I_be32. apply Z.mod_pos_bound. lia.
Qed.

(** X22.  A chunk whose data is shorter than 2^32 bytes is always written,
    whatever [zlib.crc32] returns, as: the length of the data in four
    big-endian bytes, the type, the data, and the CRC of type and data
    reduced to 32 bits. *)
Theorem chunk_framing (type data : bytes) :
  len data < 2 ^ 32 ->
  exists n crc,
    write_pngchunk_withcrc crc32 type data = Ok (n ++ type ++ data ++ crc)
    /\ length n = 4%nat /\ be32 n = len data
    /\ length crc = 4%nat /\ be32 crc = crc32 (type ++ data) mod 2 ^ 32.
Proof.
  intros Hlen.
  destruct (pack_I_be32 (len data)) as (n & En & Hn & Hnv);
    [unfold len in *; lia|].
  destruct (crc_field (type ++ data)) as (crc & Ec & Hc & Hcv).
  exists n, crc. unfold write_pngchunk_withcrc. rewrite En, Ec.
  cbn [rbind]. auto.
Qed.




(** X24.  Whenever [output_png] writes the whole file, the file starts with
    the eight signature bytes and ends with the IEND chunk: four zero bytes
    for the empty length, the type IEND and four CRC bytes, with nothing
    after them. *)
Theorem output_png_file_frame (d : desc) (c : canvas) (file : bytes) :
  output_png_file crc32 compress d c = Ok file ->
  exists body crc,
    file = write_pngsig ++ body ++ [x00; x00; x00; x00] ++ type_IEND ++ crc
    /\ length crc = 4%nat.
Proof.
  unfold output_png_file.
  match goal with
  | |- rbind ?hd _ = _ -> _ => destruct hd as [head|]; [|discriminate]
  end.
  cbn [rbind].
  destruct (write_idat crc32 compress _) as [idat|]; [|discriminate].
  cbn [rbind]. unfold write_iend, write_pngchunk_withcrc.
  change (pack_I (len (@nil byte))) with (Ok [x00; x00; x00; x00]).
  cbn [rbind].
  destruct (crc_field (type_IEND ++ [])) as (crc & Ec & Hc & _).
  rewrite Ec. cbn [rbind]. intros [= <-].
  exists (head ++ idat), crc. split; [|exact Hc].
  rewrite <- !app_assoc. reflexivity.
Qed.

End PngWriterFacts.

(** With a checksum that is always zero. *)
Lemma chunk_framing_witness :
  exists n crc,
    write_pngchunk_withcrc (fun _ => 0) type_IEND [] = Ok (n ++ type_IEND ++ [] ++ crc)
    /\ length n = 4%nat /\ be32 n = 0
    /\ length crc = 4%nat /\ be32 crc = 0.
Proof.
  apply (chunk_framing (fun _ => 0) type_IEND []). cbn. lia.
Defined.


(** A one-row RGB canvas written with the identity as compressor. *)
Lemma output_png_file_frame_witness :
  match output_png_file (fun _ => 0) (fun s => s) sample_crop_desc
          {| rows := [[x01; x02; x03]]; log := [] |} with
  | Ok file =>
      exists body crc,
        file = write_pngsig ++ body ++ [x00; x00; x00; x00] ++ type_IEND ++ crc
        /\ length crc = 4%nat
  | Raise _ => False
  end.
Proof.
  destruct (output_png_file (fun _ => 0) (fun s => s) sample_crop_desc
              {| rows := [[x01; x02; x03]]; log := [] |}) as [file|] eqn:E.
  - exact (output_png_file_frame _ _ _ _ _ E).
  - vm_compute in E. discriminate.
Defined.

(** ** The palette the builder returns *)

Lemma map_flat_map {A B C} (f : B -> C) (g : A -> list B) (l : list A) :
  map f (flat_map g l) = flat_map (fun a => map f (g a)) l.
Proof.
  induction l as [|a l IH]; cbn [flat_map map]; [reflexivity|].
  now rewrite map_app, IH.
Qed.

Lemma flat_map_ext_in {A B} (f g : A -> list B) (l : list A) :
  (forall a, In a l -> f a = g a) -> flat_map f l = flat_map g l.
Proof.
  induction l as [|a l IH]; intros H; cbn [flat_map]; [reflexivity|].
  rewrite (H a) by now left. rewrite IH; [reflexivity|].
  intros b Hb. apply H. now right.
Qed.

Lemma padding_alpha_values (n : nat) :
  map byte_to_Z (concat (repeat [xff] n)) = repeat 255 n.
Proof.
  induction n as [|n IH]; [reflexivity|].
  cbn [repeat concat app map]. now rewrite IH.
Qed.

(** The alpha of entry [n] is the fourth byte of the entry in the blob and
    the [n]-th byte of the alpha string, for read and for padded entries. *)
Lemma blob_alpha_is_transpng {A} (r g b a : A -> byte) (qs : list A) (m : nat) :
  forall n,
    nth_error (flat_map (fun q => [b q; g q; r q; a q]) qs
               ++ concat (repeat [x00; x00; x00; xff] m)) (4 * n + 3)
    = nth_error (map a qs ++ concat (repeat [xff] m)) n.
Proof.
  induction qs as [|q qs IH]; intros n.
  - cbn [flat_map map app]. revert n.
    induction m as [|m IHm]; intros n.
    + cbn. now rewrite !nth_error_nil.
    + destruct n as [|n]; [reflexivity|].
      cbn [repeat concat app].
      replace (4 * S n + 3)%nat with (S (S (S (S (4 * n + 3))))) by lia.
      cbn [nth_error]. apply IHm.
  - destruct n as [|n]; [reflexivity|].
    cbn [flat_map map app].
    replace (4 * S n + 3)%nat with (S (S (S (S (4 * n + 3))))) by lia.
    cbn [nth_error]. apply IH.
Qed.

Lemma stored_alpha_value (data : bytes) (q : nat) :
  byte_to_Z (byte_of_Z (expand_alpha (byte_to_Z (nth (q + 3) data x00))))
  = expand_alpha (byte_to_Z (nth (q + 3) data x00)).
Proof.
  apply byte_of_Z_ok. apply expand_alpha_range. apply byte_to_Z_range.
Qed.

(** The block loop, with the entry positions written relative to the start
    of the palette. *)
Lemma block_positions (pal_start : nat) :
  flat_map (fun h =>
    flat_map (fun i =>
      flat_map (fun j =>
        map (fun k =>
               (Z.to_nat (sub_block_offset h i j + Z.of_nat pal_start)
                + 4 * k)%nat)
          (seq 0 8))
        (range 2))
      (range 2))
    (range (0x100 * 4 / 0x80))
  = map (fun o => (pal_start + o)%nat)
      (flat_map (fun h =>
         flat_map (fun i =>
           flat_map (fun j =>
             map (fun k => (Z.to_nat (sub_block_offset h i j) + 4 * k)%nat)
               (seq 0 8))
             (range 2))
           (range 2))
         (range (0x100 * 4 / 0x80))).
Proof.
  rewrite map_flat_map. apply flat_map_ext_in. intros h Hh.
  apply in_range in Hh. change (0x100 * 4 / 0x80) with 8 in Hh.
  rewrite map_flat_map. apply flat_map_ext_in. intros i Hi.
  apply in_range in Hi.
  rewrite map_flat_map. apply flat_map_ext_in. intros j Hj.
  apply in_range in Hj.
  rewrite map_map. apply map_ext. intros k.
  unfold sub_block_offset. lia.
Qed.

Lemma block_offsets_cover (n : nat) :
  (n < 256)%nat ->
  In (4 * n)%nat
    (flat_map (fun h =>
       flat_map (fun i =>
         flat_map (fun j =>
           map (fun k => (Z.to_nat (sub_block_offset h i j) + 4 * k)%nat)
             (seq 0 8))
           (range 2))
         (range 2))
       (range (0x100 * 4 / 0x80))).
Proof.
  intros Hn.
  assert (forallb
            (fun n =>
               existsb (Nat.eqb (4 * n))
                 (flat_map (fun h =>
                    flat_map (fun i =>
                      flat_map (fun j =>
                        map (fun k =>
                               (Z.to_nat (sub_block_offset h i j) + 4 * k)%nat)
                          (seq 0 8))
                        (range 2))
                      (range 2))
                    (range (0x100 * 4 / 0x80))))
            (seq 0 256) = true) as Hall by (vm_compute; reflexivity).
  rewrite forallb_forall in Hall.
  specialize (Hall n ltac:(apply in_seq; lia)).
  apply existsb_exists in Hall. destruct Hall as (o & Ho & Heq).
  apply Nat.eqb_eq in Heq. now subst o.
Qed.

Section PaletteContent.

Variable data : bytes.

(** The alpha byte stored for the entry that starts at file position [q]. *)
Local Abbreviation alpha_at q :=
  (byte_of_Z (expand_alpha (byte_to_Z (nth (q + 3)%nat data x00)))).

(** [p] after the entries that start at the file positions [qs] have been
    appended, in that order. *)
Local Abbreviation with_entries p qs :=
  {| paletteblob :=
       paletteblob p
       ++ flat_map (fun q : nat => [nth (q + 2)%nat data x00;
                                    nth (q + 1)%nat data x00;
                                    nth q data x00; alpha_at q]) qs;
     palettepng :=
       palettepng p
       ++ flat_map (fun q : nat => [nth q data x00; nth (q + 1)%nat data x00;
                                    nth (q + 2)%nat data x00]) qs;
     transpng := transpng p ++ map (fun q : nat => alpha_at q) qs |}.

Lemma with_entries_nil (p : palette) : with_entries p [] = p.
Proof.
  destruct p. cbn. now rewrite !app_nil_r.
Qed.

Lemma with_entries_app (p : palette) (qs1 qs2 : list nat) :
  with_entries (with_entries p qs1) qs2 = with_entries p (qs1 ++ qs2).
Proof.
  cbn [paletteblob palettepng transpng].
  now rewrite !flat_map_app, map_app, <- !app_assoc.
Qed.

Lemma nth_after (pos k : nat) :
  nth (pos + k) data x00 = nth k (skipn pos data) x00.
Proof.
  destruct (Nat.le_gt_cases pos (length data)) as [Hle | Hgt].
  - rewrite <- (firstn_skipn pos data) at 1.
    rewrite <- (firstn_length_le data Hle) at 1.
    apply app_nth2_plus.
  - rewrite skipn_all2 by lia. rewrite nth_overflow by lia. now destruct k.
Qed.

Lemma read_palette_entry_at (p : palette) (pos : nat) :
  (pos + 4 <= length data)%nat ->
  read_palette_entry data p pos = Ok (with_entries p [pos], (pos + 4)%nat).
Proof.
  intros Hpos.
  assert (length (skipn pos data) >= 4)%nat as Hl
    by (rewrite length_skipn; lia).
  rewrite (read_palette_entry_eq data pos p
             (nth pos data x00) (nth (pos + 1) data x00)
             (nth (pos + 2) data x00) (nth (pos + 3) data x00)
             (alpha_at pos)).
  - cbn [flat_map map app]. reflexivity.
  - rewrite <- (Nat.add_0_r pos) at 2. rewrite !nth_after.
    destruct (skipn pos data) as [|r [|g [|b [|a rest]]]];
      cbn [length] in Hl; try lia. reflexivity.
  - apply byte_of_Z_ok. apply expand_alpha_range. apply byte_to_Z_range.
Qed.

Lemma read_palette_entries_at {A} (l : list A) :
  forall (p : palette) (pos : nat),
    (pos + 4 * length l <= length data)%nat ->
    mfor l (fun _ => read_palette_entry data) p pos
    = Ok (with_entries p (map (fun k => pos + 4 * k)%nat (seq 0 (length l))),
          (pos + 4 * length l)%nat).
Proof.
  induction l as [|a l IH]; intros p pos Hpos; cbn [mfor length] in *.
  - unfold mret. cbn [seq map]. rewrite with_entries_nil.
    do 2 f_equal. lia.
  - unfold mbind. rewrite read_palette_entry_at by lia.
    rewrite IH by lia. rewrite with_entries_app.
    assert ([pos] ++ map (fun k => pos + 4 + 4 * k)%nat (seq 0 (length l))
            = map (fun k => pos + 4 * k)%nat (seq 0 (S (length l)))) as ->.
    { cbn [seq map app]. rewrite Nat.mul_0_r, Nat.add_0_r. f_equal.
      rewrite <- seq_shift, map_map. apply map_ext. intros k. lia. }
    do 2 f_equal. lia.
Qed.

Lemma mfor_with_entries {A} (body : A -> palette -> M palette)
    (g : A -> list nat) (l : list A) :
  (forall a, In a l -> forall p pos,
     exists pos', body a p pos = Ok (with_entries p (g a), pos')) ->
  forall p pos,
    exists pos',
      mfor l body p pos = Ok (with_entries p (flat_map g l), pos').
Proof.
  induction l as [|a l IH]; intros Hbody p pos; cbn [mfor flat_map].
  - exists pos. unfold mret. now rewrite with_entries_nil.
  - destruct (Hbody a (or_introl eq_refl) p pos) as (pos1 & E1).
    destruct (IH (fun b Hb => Hbody b (or_intror Hb))
                (with_entries p (g a)) pos1) as (pos2 & E2).
    exists pos2. unfold mbind. rewrite E1, E2. now rewrite with_entries_app.
Qed.

Lemma read_palette_linear_at (p : palette) (pos : nat) :
  (pos + 64 <= length data)%nat ->
  exists pos',
    read_palette_linear data 0x10 p pos
    = Ok (with_entries p (map (fun k => pos + 4 * k)%nat (seq 0 16)), pos').
Proof.
  intros Hpos. eexists. unfold read_palette_linear.
  rewrite read_palette_entries_at by (rewrite range_length; lia).
  rewrite range_length. reflexivity.
Qed.

Lemma read_palette_blocks_at (p : palette) (pos : nat) :
  (pos + 1024 <= length data)%nat ->
  exists pos',
    read_palette_blocks data 0x100 p pos
    = Ok (with_entries p
            (flat_map (fun h =>
               flat_map (fun i =>
                 flat_map (fun j =>
                   map (fun k =>
                          (Z.to_nat (sub_block_offset h i j + Z.of_nat pos)
                           + 4 * k)%nat)
                     (seq 0 8))
                   (range 2))
                 (range 2))
               (range (0x100 * 4 / 0x80))), pos').
Proof.
  intros Hpos. unfold read_palette_blocks. unfold mbind at 1, tell.
  apply mfor_with_entries. intros h Hh. apply in_range in Hh.
  change (0x100 * 4 / 0x80) with 8 in Hh.
  apply mfor_with_entries. intros i Hi. apply in_range in Hi.
  apply mfor_with_entries. intros j Hj q pos1. apply in_range in Hj.
  unfold mbind, seek. eexists.
  rewrite read_palette_entries_at.
  - change (length (range 8)) with 8%nat. reflexivity.
  - change (length (range 8)) with 8%nat. unfold sub_block_offset. lia.
Qed.

(** The alphas of a palette made of the entries at [qs] followed by padding
    entries. *)
Lemma entries_alpha (qs : list nat) (l : list Z) :
  map byte_to_Z
    (transpng (fold_left (fun p _ => pad_entry p) l
                 (with_entries empty_palette qs)))
  = map (fun q => expand_alpha (byte_to_Z (nth (q + 3)%nat data x00))) qs
    ++ repeat 255 (length l)
  /\ forall n,
       nth_error
         (paletteblob (fold_left (fun p _ => pad_entry p) l
                         (with_entries empty_palette qs))) (4 * n + 3)
       = nth_error
           (transpng (fold_left (fun p _ => pad_entry p) l
                        (with_entries empty_palette qs))) n.
Proof.
  rewrite pad_palette_eq.
  cbn [paletteblob palettepng transpng empty_palette app]. split.
  - rewrite map_app, padding_alpha_values, map_map. f_equal.
    apply map_ext. intros q. apply stored_alpha_value.
  - intros n.
    apply (blob_alpha_is_transpng
             (fun q => nth q data x00) (fun q => nth (q + 1)%nat data x00)
             (fun q => nth (q + 2)%nat data x00)).
Qed.

Lemma built_palette (qs : list nat) (p : palette) (pos1 pos2 : nat)
    (r : result (palette * nat)) :
  r = Ok (p, pos1) ->
  r = Ok (with_entries empty_palette qs, pos2) ->
  p = with_entries empty_palette qs.
Proof.
  intros -> [= ->]. reflexivity.
Qed.

Lemma linear_palette_alpha (p : palette) (pos0 pos1 : nat) (l : list Z) :
  read_palette_linear data 0x10 empty_palette pos0 = Ok (p, pos1) ->
  map byte_to_Z (transpng (fold_left (fun p _ => pad_entry p) l p))
  = map (fun q => expand_alpha (byte_to_Z (nth (q + 3)%nat data x00)))
      (map (fun k => pos0 + 4 * k)%nat (seq 0 16))
    ++ repeat 255 (length l)
  /\ forall n,
       nth_error (paletteblob (fold_left (fun p _ => pad_entry p) l p))
         (4 * n + 3)
       = nth_error (transpng (fold_left (fun p _ => pad_entry p) l p)) n.
Proof.
  intros E.
  pose proof (read_palette_linear_needs _ _ _ _ _ E) as Hneed.
  destruct (read_palette_linear_at empty_palette _ Hneed) as (pos2 & E2).
  rewrite (built_palette _ _ _ _ _ E E2). apply entries_alpha.
Qed.

Lemma blocks_palette_alpha (p : palette) (pos0 pos1 : nat) (l : list Z) :
  read_palette_blocks data 0x100 empty_palette pos0 = Ok (p, pos1) ->
  map byte_to_Z (transpng (fold_left (fun p _ => pad_entry p) l p))
  = map (fun q => expand_alpha (byte_to_Z (nth (q + 3)%nat data x00)))
      (map (fun o => pos0 + o)%nat
         (flat_map (fun h =>
            flat_map (fun i =>
              flat_map (fun j =>
                map (fun k => (Z.to_nat (sub_block_offset h i j) + 4 * k)%nat)
                  (seq 0 8))
                (range 2))
              (range 2))
            (range (0x100 * 4 / 0x80))))
    ++ repeat 255 (length l)
  /\ forall n,
       nth_error (paletteblob (fold_left (fun p _ => pad_entry p) l p))
         (4 * n + 3)
       = nth_error (transpng (fold_left (fun p _ => pad_entry p) l p)) n.
Proof.
  intros E.
  pose proof (read_palette_blocks_needs _ _ _ _ _ E) as Hneed.
  destruct (read_palette_blocks_at empty_palette _ Hneed) as (pos2 & E2).
  rewrite block_positions in E2.
  rewrite (built_palette _ _ _ _ _ E E2). apply entries_alpha.
Qed.

End PaletteContent.

(** C7.  In the palette that [extract_desc] returns for an indexed bitmap,
    the alpha stored for every on-disk entry is [expand] of its raw alpha
    byte (the fourth byte of the entry), where [expand(a)] is [a*2 + (a>>6)]
    below 128 and 255 from 128 on; in particular [expand(0) = 0] and
    [expand(127) = 255].  [offsets] lists the positions of the entries,
    relative to the start of the palette, in the order in which the loops
    append them: every on-disk entry is among them, the alpha string is the
    expanded raw alphas in that order followed by the padding 255, and the
    fourth byte of every entry of the blob is the same alpha. *)
Theorem palette_alpha_is_expanded
    (data : bytes) (real_offset : nat) (h : header) (d : desc) (pos : nat) :
  unpack_header (firstn 16 (skipn real_offset data)) = Ok h ->
  bmp_type h = 0x01 ->
  extract_desc data real_offset 0%nat = Ok (d, pos) ->
  let offsets : list nat :=
    if mem (bmp_depth h) [0x00; 0x10] then
      map (fun k => 4 * k)%nat (seq 0 16)
    else
      flat_map (fun hh =>
        flat_map (fun i =>
          flat_map (fun j =>
            map (fun k => (Z.to_nat (sub_block_offset hh i j) + 4 * k)%nat)
              (seq 0 8))
            (range 2))
          (range 2))
        (range (0x100 * 4 / 0x80)) in
  let raw_alpha := fun o : nat =>
    byte_to_Z (nth (real_offset + 16 + o + 3) data x00) in
  palette_count d = Some (Z.of_nat (length offsets))
  /\ (forall n, (n < length offsets)%nat -> In (4 * n)%nat offsets)
  /\ map byte_to_Z (transpng (pal d))
     = map (fun o => expand_alpha (raw_alpha o)) offsets
       ++ repeat 255 (256 - length offsets)
  /\ (forall n,
        nth_error (paletteblob (pal d)) (4 * n + 3)
        = nth_error (transpng (pal d)) n)
  /\ (forall a,
        expand_alpha a = (if a <? 128 then a * 2 + Z.shiftr a 6 else 255))
  /\ expand_alpha 0 = 0
  /\ expand_alpha 127 = 255
  /\ (forall a, 128 <= a -> expand_alpha a = 255).
Proof.
  intros H Ht Ed offsets raw_alpha.
  assert ((forall a,
             expand_alpha a = (if a <? 128 then a * 2 + Z.shiftr a 6 else 255))
          /\ expand_alpha 0 = 0 /\ expand_alpha 127 = 255
          /\ (forall a, 128 <= a -> expand_alpha a = 255)) as Hexpand.
  { split; [apply expand_alpha_formula|]. split; [reflexivity|].
    split; [reflexivity|]. intros a Ha. rewrite expand_alpha_formula.
    destruct (Z.ltb_spec a 128); [lia | reflexivity]. }
  destruct (mem (bmp_depth h) [0x01; 0x00; 0x10; 0x11; 0x91]) eqn:Hd.
  2:{ rewrite (extract_desc_unknown_depth_indexed _ _ _ _ H Ht Hd) in Ed.
      discriminate. }
  apply accepted_depths in Hd. destruct Hd as [Hd | Hd].
  - (* depth 0x00 or 0x10: sixteen entries in storage order *)
    assert (offsets = map (fun k => 4 * k)%nat (seq 0 16)) as Hoff
      by (unfold offsets; destruct Hd as [-> | ->]; reflexivity).
    rewrite (extract_desc_linear _ _ _ H Ht Hd) in Ed.
    destruct (read_palette_linear data 0x10 empty_palette _)
      as [[p pos1]|] eqn:E; [|discriminate].
    injection Ed as <- _. cbn [palette_count pal]. unfold pad_palette.
    destruct (linear_palette_alpha data p _ pos1 (range2 0x10 0x100) E)
      as (Halpha & Hblob).
    rewrite Hoff, length_map, length_seq.
    split; [reflexivity|]. split; [|split; [|split]].
    + intros n Hn. apply in_map. apply in_seq. lia.
    + rewrite Halpha, range2_length, !map_map. reflexivity.
    + exact Hblob.
    + exact Hexpand.
  - (* depth 0x01, 0x11 or 0x91: 256 entries, block by block *)
    assert (offsets
            = flat_map (fun hh =>
                flat_map (fun i =>
                  flat_map (fun j =>
                    map (fun k =>
                           (Z.to_nat (sub_block_offset hh i j) + 4 * k)%nat)
                      (seq 0 8))
                    (range 2))
                  (range 2))
                (range (0x100 * 4 / 0x80))) as Hoff
      by (unfold offsets; destruct Hd as [-> | [-> | ->]]; reflexivity).
    assert (length offsets = 256%nat) as Hlen
      by (rewrite Hoff; vm_compute; reflexivity).
    rewrite (extract_desc_blocks _ _ _ H Ht Hd) in Ed.
    destruct (read_palette_blocks data 0x100 empty_palette _)
      as [[p pos1]|] eqn:E; [|discriminate].
    injection Ed as <- _. cbn [palette_count pal].
    destruct (blocks_palette_alpha data p _ pos1 [] E) as (Halpha & Hblob).
    cbn [fold_left length repeat] in Halpha, Hblob.
    rewrite <- Hoff in Halpha. rewrite Hlen.
    split; [reflexivity|]. split; [|split; [|split]].
    + intros n Hn. rewrite Hoff. now apply block_offsets_cover.
    + rewrite Halpha, !map_map. reflexivity.
    + exact Hblob.
    + exact Hexpand.
Qed.

(** The block-swizzled sample container: the ninth alpha stored is the
    expansion of the raw alpha of the entry stored at physical index 16. *)
Lemma palette_alpha_is_expanded_witness :
  match extract_desc (sample_indexed 0x11) 0%nat 0%nat with
  | Ok (d, _) =>
      nth_error (map byte_to_Z (transpng (pal d))) 8 = Some (expand_alpha 16)
      /\ nth_error (paletteblob (pal d)) (4 * 8 + 3)
         = nth_error (transpng (pal d)) 8
  | Raise _ => False
  end.
Proof.
  destruct (extract_desc (sample_indexed 0x11) 0%nat 0%nat) as [[d pos]|] eqn:E.
  - destruct (palette_alpha_is_expanded (sample_indexed 0x11) 0%nat
                {| width := 4; height := 4; tile_width := 4; tile_height := 4;
                   tile_x_count := 1; tile_y_count := 1; bmp_type := 0x01;
                   bmp_depth := 0x11; tile_crop := 0 |} d pos
                eq_refl eq_refl E) as (_ & _ & Halpha & Hblob & _).
    split; [|apply Hblob].
    rewrite Halpha. vm_compute. reflexivity.
  - vm_compute in E. discriminate.
Defined.
